(** * The user gateway of [app.py]: a shallow embedding and its contract

    [app.py] is a Flask application with five view functions.  Each one
    forwards a browser request to an upstream REST API (through
    [requests]), the create view also uploads a file to S3 (through
    [boto3]), and every step is logged.

    The embedding keeps the views as they are written: straight-line
    scripts in a small monad that reads the outside world (what the
    upstream and the object store answer), may raise a Python exception,
    and writes the trace of the effects performed (log records, HTTP
    calls, uploads). *)

From Stdlib Require Import ZArith NArith List String Ascii Bool Lia.
From Stdlib Require Import DecimalString DecimalN DecimalZ.
Import ListNotations.
Open Scope string_scope.
Open Scope Z_scope.
Set Warnings "-register-all".

(** ** Python values *)

(** JSON documents, as [response.json()] returns them and as [jsonify]
    takes them.  Objects keep their insertion order, as Python dicts do.
    Numbers are integers: no view computes with a JSON number. *)
Inductive JSON : Type :=
| JNull
| JBool (b : bool)
| JNum (n : Z)
| JStr (s : string)
| JArr (items : list JSON)
| JObj (fields : list (string * JSON)).

(** [d[key]] on a JSON object, first binding. *)
Fixpoint assoc {A : Type} (key : string) (l : list (string * A)) : option A :=
  match l with
  | [] => None
  | (k, v) :: rest => if String.eqb k key then Some v else assoc key rest
  end.

Definition json_get (key : string) (j : JSON) : option JSON :=
  match j with
  | JObj fields => assoc key fields
  | _ => None
  end.

(** [str(n)] and [f"{n}"] for an integer. *)
Definition str_int (z : Z) : string := NilZero.string_of_int (Z.to_int z).
Definition str_nat (n : N) : string := NilZero.string_of_uint (N.to_uint n).

(** [os.getenv] returns [None] for a variable that is not set; an
    f-string prints it as the four letters [None]. *)
Definition fstr (v : option string) : string :=
  match v with
  | Some s => s
  | None => "None"
  end.

(** Exceptions.  [HTTPException] is werkzeug's family (it carries the
    status Flask answers with, as [BadRequestKeyError] does with 400);
    [Error] is every other exception class, with its [str(e)]. *)
Inductive Exception : Type :=
| HTTPException (code : Z) (description : string)
| Error (cls : string) (msg : string).

Definition str_exc (e : Exception) : string :=
  match e with
  | HTTPException _ d => d
  | Error _ m => m
  end.

(** ** The outside world *)

Inductive Method : Type := GET | POST | PUT | PATCH | DELETE.

Definition Method_eqb (a b : Method) : bool :=
  match a, b with
  | GET, GET | POST, POST | PUT, PUT | PATCH, PATCH | DELETE, DELETE => true
  | _, _ => false
  end.

(** A [requests.Response]: its [status_code] and what calling [.json()]
    on it does (the parsed body, or the decode error it raises). *)
Record Response : Type := mkResponse {
  status_code : Z;
  json : Exception + JSON
}.

(** A werkzeug [FileStorage]; it is truthy exactly when it has a
    filename, which is how a browser sends an empty file field. *)
Record FileStorage : Type := mkFile {
  filename : string;
  stream : list Byte.byte
}.

Definition file_truthy (f : FileStorage) : bool :=
  negb (String.eqb (filename f) "").

(** What the upstream API answers to each call and what the bucket
    answers to each upload.  A URL and a bucket are Python values that
    may be [None]. *)
Record World : Type := mkWorld {
  http : Method -> option string -> option JSON -> Exception + Response;
  upload : FileStorage -> option string -> string -> Exception + unit
}.

Inductive Level : Type := INFO | WARNING | ERROR.

Inductive Event : Type :=
| Log (lvl : Level) (msg : string)
| Http (m : Method) (url : option string) (body : option JSON)
| Upload (file : FileStorage) (bucket : option string) (key : string).

(** ** The monad of a view function *)

Definition M (A : Type) : Type := World -> (Exception + A) * list Event.

Definition ret {A : Type} (a : A) : M A := fun _ => (inr a, []).

Definition raise {A : Type} (e : Exception) : M A := fun _ => (inl e, []).

Definition bind {A B : Type} (m : M A) (k : A -> M B) : M B :=
  fun w =>
    match m w with
    | (inl e, t) => (inl e, t)
    | (inr a, t) => let (r, t') := k a w in (r, (t ++ t')%list)
    end.

Declare Scope py_scope.
Delimit Scope py_scope with py.
Notation "x <- m ;; k" := (bind m (fun x => k))
  (at level 61, m at next level, right associativity) : py_scope.
Notation "m ;; k" := (bind m (fun _ => k))
  (at level 61, right associativity) : py_scope.
Open Scope py_scope.

(** [try: x = body  except Exception as e: return handler(e)] followed by
    the rest of the function, which runs outside the [try]. *)
Definition try_except_return {A R : Type}
    (body : M A) (handler : Exception -> M R) (rest : A -> M R) : M R :=
  fun w =>
    match body w with
    | (inl e, t) => let (r, t') := handler e w in (r, (t ++ t')%list)
    | (inr a, t) => let (r, t') := rest a w in (r, (t ++ t')%list)
    end.

(** [try: body  except Exception as e: handler(e)], both branches giving
    the value the statement leaves behind. *)
Definition try_except {A : Type} (body : M A) (handler : Exception -> M A) : M A :=
  fun w =>
    match body w with
    | (inl e, t) => let (r, t') := handler e w in (r, (t ++ t')%list)
    | (inr a, t) => (inr a, t)
    end.

Definition emit (e : Event) : M unit := fun _ => (inr tt, [e]).

Definition lift {A : Type} (r : Exception + A) : M A := fun _ => (r, []).

Module logger.
Definition info (msg : string) : M unit := emit (Log INFO msg).
Definition warning (msg : string) : M unit := emit (Log WARNING msg).
Definition error (msg : string) : M unit := emit (Log ERROR msg).
End logger.

Module requests.
Definition request (m : Method) (url : option string) (body : option JSON) : M Response :=
  fun w => (http w m url body, [Http m url body]).
Definition get (url : option string) : M Response := request GET url None.
Definition post (url : option string) (json : JSON) : M Response := request POST url (Some json).
Definition put (url : option string) (json : JSON) : M Response := request PUT url (Some json).
Definition delete (url : option string) : M Response := request DELETE url None.
End requests.

Module s3_client.
Definition upload_fileobj (f : FileStorage) (bucket : option string) (key : string) : M unit :=
  fun w => (upload w f bucket key, [Upload f bucket key]).
End s3_client.

(** ** Flask *)

(** What a view returns. [jsonify(x)] alone is [jsonify(x), 200]. *)
Inductive FlaskResponse : Type :=
| JsonResponse (body : JSON) (status : Z)
| RedirectResponse (location : string)
| RenderedTemplate (template : string) (users : JSON) (s3_bucket : string)
| ErrorPage (code : Z).

Definition status_of (r : FlaskResponse) : Z :=
  match r with
  | JsonResponse _ s => s
  | RedirectResponse _ => 302
  | RenderedTemplate _ _ _ => 200
  | ErrorPage c => c
  end.

Definition jsonify (body : JSON) (status : Z) : FlaskResponse := JsonResponse body status.

(** The incoming request: [request.form] and [request.files] are
    multi-dicts ([d[key]] is the first value, or [BadRequestKeyError]),
    [request.json] is the parsed body or the error Flask raises. *)
Record Request : Type := mkRequest {
  method : Method;
  path : string;
  form : list (string * string);
  files : list (string * FileStorage);
  request_json : Exception + JSON
}.

Definition BadRequestKeyError (key : string) : Exception :=
  HTTPException 400 key.

Definition multidict_getitem {A : Type} (d : list (string * A)) (key : string) : M A :=
  match assoc key d with
  | Some v => ret v
  | None => raise (BadRequestKeyError key)
  end.

(** ** The URL map *)

Inductive View : Type := v_index | v_add_user | v_delete_user | v_get_user | v_update_user.

(** The endpoint of a view is the name of its function. *)
Definition endpoint (v : View) : string :=
  match v with
  | v_index => "index"
  | v_add_user => "add_user"
  | v_delete_user => "delete_user"
  | v_get_user => "get_user"
  | v_update_user => "update_user"
  end.

Record Rule : Type := mkRule {
  rule : string;
  methods : list Method;
  view : View
}.

(** The [@app.route] decorators, in the order of the file.  A route
    without [methods] answers GET.  (The methods HEAD and OPTIONS and the
    [/static] route, which Flask adds by itself, are left out.) *)
Definition url_map : list Rule :=
  [ mkRule "/" [GET] v_index;
    mkRule "/users" [POST] v_add_user;
    mkRule "/users/<int:user_id>/delete" [DELETE] v_delete_user;
    mkRule "/users/<int:user_id>" [GET] v_get_user;
    mkRule "/users/<int:user_id>" [PUT; PATCH] v_update_user ].

(** The parts of a path between its slashes. *)
Fixpoint split_slash (s : string) : list string :=
  match s with
  | EmptyString => [""]
  | String c rest =>
      if Ascii.eqb c "/" then "" :: split_slash rest
      else match split_slash rest with
           | [] => [String c ""]
           | part :: parts => String c part :: parts
           end
  end.

(** A part of a path holds no slash. *)
Fixpoint no_slash (s : string) : bool :=
  match s with
  | EmptyString => true
  | String c rest => negb (Ascii.eqb c "/") && no_slash rest
  end.

(** Putting the parts of a path back together. *)
Fixpoint join_slash (parts : list string) : string :=
  match parts with
  | [] => ""
  | [part] => part
  | part :: rest => part ++ "/" ++ join_slash rest
  end.

Definition path_parts (p : string) : option (list string) :=
  match p with
  | String "/" rest => Some (split_slash rest)
  | _ => None
  end.

Inductive Segment : Type :=
| Static (s : string)
| IntConverter (name : string).

(** [<int:name>] is a converter, anything else is matched literally. *)
Definition parse_segment (s : string) : Segment :=
  if String.prefix "<int:" s && String.eqb (substring (String.length s - 1) 1 s) ">"
  then IntConverter (substring 5 (String.length s - 6) s)
  else Static s.

Definition rule_segments (r : Rule) : list Segment :=
  match path_parts (rule r) with
  | Some parts => map parse_segment parts
  | None => []
  end.

(** The [int] converter takes one or more decimal digits and gives
    their value. *)
Definition int_converter (part : string) : option N :=
  option_map N.of_uint (NilZero.uint_of_string part).

Fixpoint match_segments (segs : list Segment) (parts : list string)
  : option (list (string * N)) :=
  match segs, parts with
  | [], [] => Some []
  | Static s :: segs', p :: parts' =>
      if String.eqb s p then match_segments segs' parts' else None
  | IntConverter name :: segs', p :: parts' =>
      match int_converter p with
      | Some n => option_map (cons (name, n)) (match_segments segs' parts')
      | None => None
      end
  | _, _ => None
  end.

Definition NotFound : Exception := HTTPException 404 "Not Found".
Definition MethodNotAllowed : Exception := HTTPException 405 "Method Not Allowed".

Definition rule_matches (parts : list string) (r : Rule)
  : list (Rule * list (string * N)) :=
  match match_segments (rule_segments r) parts with
  | Some args => [(r, args)]
  | None => []
  end.

(** The rule a request goes to: the first rule whose pattern matches the
    path and that allows the method; 405 when rules match the path but
    none allows the method, 404 when no rule matches the path. *)
Definition match_request (m : Method) (p : string)
  : Exception + (View * list (string * N)) :=
  match path_parts p with
  | None => inl NotFound
  | Some parts =>
      let hits := flat_map (rule_matches parts) url_map in
      match find (fun h => existsb (Method_eqb m) (methods (fst h))) hits with
      | Some (r, args) => inr (view r, args)
      | None => match hits with
                | [] => inl NotFound
                | _ :: _ => inl MethodNotAllowed
                end
      end
  end.

Definition has_converter (r : Rule) : bool :=
  existsb (fun seg => match seg with IntConverter _ => true | Static _ => false end)
          (rule_segments r).

(** [url_for(endpoint)] without arguments: the rule of that endpoint,
    when it needs no argument. *)
Definition url_for (ep : string) : Exception + string :=
  match find (fun r => String.eqb (endpoint (view r)) ep) url_map with
  | Some r => if has_converter r then inl (Error "BuildError" ep) else inr (rule r)
  | None => inl (Error "BuildError" ep)
  end.

Definition redirect (location : string) : FlaskResponse := RedirectResponse location.

(** ** The views of [app.py] *)

(** The configuration read from the environment when the module loads. *)
Record Config : Type := mkConfig {
  AWS_REGION : option string;
  S3_BUCKET : option string;
  API_URL : option string
}.

Section Views.

Variable cfg : Config.

(** [f"https://{S3_BUCKET}.s3.{AWS_REGION}.amazonaws.com/"] *)
Definition s3_bucket_base : string :=
  "https://" ++ fstr (S3_BUCKET cfg) ++ ".s3." ++ fstr (AWS_REGION cfg) ++ ".amazonaws.com/".

(** [f"https://{S3_BUCKET}.s3-{AWS_REGION}.amazonaws.com/{image_filename}"] *)
Definition s3_object_url (image_filename : string) : string :=
  "https://" ++ fstr (S3_BUCKET cfg) ++ ".s3-" ++ fstr (AWS_REGION cfg) ++ ".amazonaws.com/"
    ++ image_filename.

Definition render_template (template : string) (users : JSON) (s3_bucket : string)
  : FlaskResponse := RenderedTemplate template users s3_bucket.

(** [@app.route("/")] *)
Definition index : M FlaskResponse :=
  logger.info "Accessing index page" ;;
  users <- try_except
             (response <- requests.get (API_URL cfg) ;;
              logger.info "Request to API Gateway success" ;;
              lift (json response))
             (fun e =>
              logger.error ("Failed to fetch users from API Gateway: " ++ str_exc e) ;;
              ret (JArr [])) ;;
  ret (render_template "index.html" users s3_bucket_base).

(** The dict [user_data] of [add_user]. *)
Definition user_data (name email institution position phone image_url : string) : JSON :=
  JObj [ ("name", JStr name);
         ("email", JStr email);
         ("institution", JStr institution);
         ("position", JStr position);
         ("phone", JStr phone);
         ("image_url", JStr image_url) ].

(** Step 3 of [add_user] and what follows it. *)
Definition add_user_store (name email institution position phone image_url : string)
  : M FlaskResponse :=
  let user_data := user_data name email institution position phone image_url in
  logger.info ("Sending user data to API Gateway: " ++ email) ;;
  try_except_return
    (response <- requests.post (API_URL cfg) user_data ;;
     logger.info ("API response status: " ++ str_int (status_code response)) ;;
     ret response)
    (fun e =>
     logger.error ("POST to API Gateway failed: " ++ str_exc e) ;;
     ret (jsonify (JObj [("error", JStr "Failed connect to API")]) 500))
    (fun response =>
     if status_code response =? 409 then
       logger.warning ("API conflict email: " ++ email) ;;
       ret (jsonify (JObj [("error", JStr "Email already exists")]) 409)
     else
       logger.info ("User created successfully: " ++ email) ;;
       location <- lift (url_for "index") ;;
       ret (redirect location)).

(** Step 2 of [add_user] and what follows it. *)
Definition add_user_upload (name email institution position phone : string)
    (image : FileStorage) : M FlaskResponse :=
  if file_truthy image then
    let image_filename := "users/" ++ filename image in
    logger.info ("Uploading image: " ++ image_filename) ;;
    try_except_return
      (s3_client.upload_fileobj image (S3_BUCKET cfg) image_filename ;;
       let image_url := s3_object_url image_filename in
       logger.info ("Image uploaded: " ++ image_url) ;;
       ret image_url)
      (fun e =>
       logger.error ("S3 upload failed: " ++ str_exc e) ;;
       ret (jsonify (JObj [("error", JStr (str_exc e))]) 500))
      (fun image_url => add_user_store name email institution position phone image_url)
  else
    add_user_store name email institution position phone "".

(** [@app.route("/users", methods=["POST"])] *)
Definition add_user (request : Request) : M FlaskResponse :=
  logger.info "Add user request received" ;;
  name <- multidict_getitem (form request) "name" ;;
  email <- multidict_getitem (form request) "email" ;;
  institution <- multidict_getitem (form request) "institution" ;;
  position <- multidict_getitem (form request) "position" ;;
  phone <- multidict_getitem (form request) "phone" ;;
  image <- multidict_getitem (files request) "image" ;;
  logger.info ("User data: " ++ email ++ " | " ++ name) ;;
  try_except_return
    (check_response <- requests.get (Some (fstr (API_URL cfg) ++ "?email=" ++ email)) ;;
     logger.info ("Email check status: " ++ str_int (status_code check_response)) ;;
     ret check_response)
    (fun e =>
     logger.error ("Email check failed: " ++ str_exc e) ;;
     ret (jsonify (JObj [("error", JStr "API Gateway unreachable")]) 500))
    (fun check_response =>
     if status_code check_response =? 409 then
       logger.warning ("Email already exists: " ++ email) ;;
       ret (jsonify (JObj [("error", JStr "Email already exists")]) 409)
     else
       add_user_upload name email institution position phone image).

(** [@app.route("/users/<int:user_id>/delete", methods=["DELETE"])] *)
Definition delete_user (user_id : N) : M FlaskResponse :=
  logger.info ("Delete user request: " ++ str_nat user_id) ;;
  try_except_return
    (response <- requests.delete (Some (fstr (API_URL cfg) ++ "/" ++ str_nat user_id)) ;;
     logger.info ("Delete status: " ++ str_int (status_code response)) ;;
     ret response)
    (fun e =>
     logger.error ("Delete failed: " ++ str_exc e) ;;
     ret (jsonify (JObj [("error", JStr "API unreachable")]) 500))
    (fun response =>
     if status_code response =? 204 then
       logger.info ("User deleted: " ++ str_nat user_id) ;;
       ret (jsonify (JObj [("message", JStr "User deleted successfully")]) 200)
     else
       try_except
         (body <- lift (json response) ;;
          ret (jsonify body (status_code response)))
         (fun _ =>
          logger.error "Unexpected empty response from API" ;;
          ret (jsonify (JObj [("error", JStr "Unexpected empty response")])
                       (status_code response)))).

(** [@app.route("/users/<int:user_id>", methods=["GET"])] *)
Definition get_user (user_id : N) : M FlaskResponse :=
  logger.info ("Get user: " ++ str_nat user_id) ;;
  try_except
    (response <- requests.get (Some (fstr (API_URL cfg) ++ "/" ++ str_nat user_id)) ;;
     logger.info ("Get user status: " ++ str_int (status_code response)) ;;
     body <- lift (json response) ;;
     ret (jsonify body (status_code response)))
    (fun e =>
     logger.error ("Get user failed: " ++ str_exc e) ;;
     ret (jsonify (JObj [("error", JStr "API unreachable")]) 500)).

(** [@app.route("/users/<int:user_id>", methods=["PUT", "PATCH"])] *)
Definition update_user (user_id : N) (request : Request) : M FlaskResponse :=
  logger.info ("Update user: " ++ str_nat user_id) ;;
  data <- lift (request_json request) ;;
  try_except_return
    (response <- requests.put (Some (fstr (API_URL cfg) ++ "/" ++ str_nat user_id)) data ;;
     logger.info ("Update status: " ++ str_int (status_code response)) ;;
     ret response)
    (fun e =>
     logger.error ("Update failed: " ++ str_exc e) ;;
     ret (jsonify (JObj [("error", JStr "API unreachable")]) 500))
    (fun response =>
     if status_code response =? 200 then
       logger.info ("User updated: " ++ str_nat user_id) ;;
       body <- lift (json response) ;;
       ret (jsonify (JObj [("message", JStr "User updated"); ("data", body)]) 200)
     else
       logger.warning ("Update failed status: " ++ str_int (status_code response)) ;;
       ret (jsonify (JObj [("error", JStr "Failed to update user")]) (status_code response))).

End Views.

(** ** Dispatch *)

Definition view_arg (args : list (string * N)) (name : string) : M N :=
  match assoc name args with
  | Some n => ret n
  | None => raise (Error "TypeError" name)
  end.

(** Calling the view function of a matched rule with its arguments. *)
Definition dispatch_request (cfg : Config) (v : View) (args : list (string * N))
    (request : Request) : M FlaskResponse :=
  match v with
  | v_index => index cfg
  | v_add_user => add_user cfg request
  | v_delete_user => user_id <- view_arg args "user_id" ;; delete_user cfg user_id
  | v_get_user => user_id <- view_arg args "user_id" ;; get_user cfg user_id
  | v_update_user => user_id <- view_arg args "user_id" ;; update_user cfg user_id request
  end.

(** What Flask answers when a view raises: the status of an
    [HTTPException], 500 for anything else. *)
Definition handle_exception (e : Exception) : FlaskResponse :=
  match e with
  | HTTPException code _ => ErrorPage code
  | Error _ _ => ErrorPage 500
  end.

(** One request, from the route to the response. *)
Definition wsgi_app (cfg : Config) (request : Request) (w : World)
  : FlaskResponse * list Event :=
  match match_request (method request) (path request) with
  | inl e => (handle_exception e, [])
  | inr (v, args) =>
      match dispatch_request cfg v args request w with
      | (inr response, t) => (response, t)
      | (inl e, t) => (handle_exception e, t)
      end
  end.

(** ** Reading a run *)

Definition result {A : Type} (r : (Exception + A) * list Event) : Exception + A := fst r.
Definition trace {A : Type} (r : (Exception + A) * list Event) : list Event := snd r.

Definition is_upload (e : Event) : bool :=
  match e with Upload _ _ _ => true | _ => false end.

Definition is_http (e : Event) : bool :=
  match e with Http _ _ _ => true | _ => false end.

(** The uploads and the upstream calls of a trace, in order. *)
Definition uploads (t : list Event) : list Event := filter is_upload t.
Definition http_calls (t : list Event) : list Event := filter is_http t.

(** What a run does to the outside: its trace without the log records. *)
Definition is_log (e : Event) : bool :=
  match e with Log _ _ => true | _ => false end.

Definition effects (t : list Event) : list Event := filter (fun e => negb (is_log e)) t.

(** The method of an upstream call, when the event is one. *)
Definition http_method (e : Event) : option Method :=
  match e with Http m _ _ => Some m | _ => None end.

(** The five form fields and the file field of a create request. *)
Definition form_fields (request : Request)
    (name email institution position phone : string) (image : FileStorage) : Prop :=
  assoc "name" (form request) = Some name /\
  assoc "email" (form request) = Some email /\
  assoc "institution" (form request) = Some institution /\
  assoc "position" (form request) = Some position /\
  assoc "phone" (form request) = Some phone /\
  assoc "image" (files request) = Some image.

(** The [image_url] that a create request with this file posts. *)
Definition image_url_of (cfg : Config) (image : FileStorage) : string :=
  if file_truthy image then s3_object_url cfg ("users/" ++ filename image) else "".

(** ** Sample configurations, worlds and requests *)

Definition cfg0 : Config :=
  mkConfig (Some "us-east-1") (Some "bkt") (Some "http://api/users").

Definition decode_error : Exception :=
  Error "JSONDecodeError" "Expecting value: line 1 column 1 (char 0)".

Definition connection_error : Exception :=
  Error "ConnectionError" "Connection refused".

(** An upstream that gives the same answer to every call, and a bucket
    that takes every upload. *)
Definition upstream_answers (r : Exception + Response) : World :=
  mkWorld (fun _ _ _ => r) (fun _ _ _ => inr tt).

(** An upstream that answers [check] to a GET and [create] to anything
    else, and a bucket that takes every upload. *)
Definition upstream_create (check create : Exception + Response) : World :=
  mkWorld (fun m _ _ => match m with GET => check | _ => create end)
          (fun _ _ _ => inr tt).

Definition user7 : JSON := JObj [("id", JNum 7); ("name", JStr "A")].

Definition no_json : Exception + JSON :=
  inl (HTTPException 415 "Unsupported Media Type").

Definition request_of (m : Method) (p : string) : Request :=
  mkRequest m p [] [] no_json.

(** The create request of the end-to-end example: five fields, and the
    empty file field a browser sends when no image is chosen. *)
Definition create_A : Request :=
  mkRequest POST "/users"
    [("name", "A"); ("email", "a@x.com"); ("institution", "I");
     ("position", "P"); ("phone", "000")]
    [("image", mkFile "" [])]
    no_json.

Definition create_A_with_image : Request :=
  mkRequest POST "/users"
    [("name", "A"); ("email", "a@x.com"); ("institution", "I");
     ("position", "P"); ("phone", "000")]
    [("image", mkFile "a.png" [])]
    no_json.

Definition update_7 : Request :=
  mkRequest PUT "/users/7" [] [] (inr (JObj [("name", JStr "B")])).

(** ** Stepping through a view *)

Ltac unfold_monad :=
  unfold result, trace, multidict_getitem, view_arg,
    logger.info, logger.warning, logger.error,
    requests.get, requests.post, requests.put, requests.delete, requests.request,
    s3_client.upload_fileobj in *;
  unfold try_except_return, try_except, bind, emit, ret, raise, lift in *.

Ltac step_views :=
  unfold add_user, add_user_upload, add_user_store, delete_user, get_user, update_user,
    index in *;
  unfold_monad.

Ltac run_view := step_views; cbv beta iota zeta.

(** Case analysis on whatever the world or the request decides next. *)
Ltac break_inner :=
  match goal with
  | |- context [match ?x with _ => _ end] =>
      lazymatch x with
      | context [match _ with _ => _ end] => fail
      | _ => destruct x eqn:?
      end
  end.

Ltac run_cases := repeat (cbv beta iota zeta; try break_inner).

(** * Get *)

(** What [get_user] answers, case by case. *)
Lemma get_user_result (cfg : Config) (user_id : N) (w : World) :
  result (get_user cfg user_id w) =
  inr match http w GET (Some (fstr (API_URL cfg) ++ "/" ++ str_nat user_id)) None with
      | inr response =>
          match json response with
          | inr body => jsonify body (status_code response)
          | inl _ => jsonify (JObj [("error", JStr "API unreachable")]) 500
          end
      | inl _ => jsonify (JObj [("error", JStr "API unreachable")]) 500
      end.
Proof.
  run_view.
  destruct (http w GET _ None) as [e | response]; cbv beta iota zeta; [reflexivity |].
  destruct (json response) as [e | body]; reflexivity.
Qed.

(** C1, as stated, fails.  With the upstream answering 200 and a body
    that is not JSON, the call succeeds and the gateway answers 500 with
    {"error": "API unreachable"}: neither the status nor the body of the
    upstream comes through. *)
Lemma get_user_not_always_pass_through :
  ~ (forall (cfg : Config) (user_id : N) (w : World) (response : Response),
        http w GET (Some (fstr (API_URL cfg) ++ "/" ++ str_nat user_id)) None = inr response ->
        exists body,
          result (get_user cfg user_id w) = inr (jsonify body (status_code response))).
Proof.
  intros H.
  destruct (H cfg0 7%N (upstream_answers (inr (mkResponse 200 (inl decode_error))))
              (mkResponse 200 (inl decode_error)) eq_refl) as [body Hbody].
  vm_compute in Hbody. discriminate Hbody.
Qed.

(** C1, amended: for every request GET /users/<id>, when the upstream
    call succeeds and its body parses as JSON, the gateway answers that
    JSON body with the upstream status, whatever they are; when the
    upstream call raises, or succeeds with a body that does not parse,
    the gateway answers 500 with body {"error": "API unreachable"}.  In
    every case exactly one upstream call is made, GET <API_URL>/<id>. *)
Theorem get_user_pass_through (cfg : Config) (user_id : N) (w : World) :
  let url := Some (fstr (API_URL cfg) ++ "/" ++ str_nat user_id) in
  let unreachable := jsonify (JObj [("error", JStr "API unreachable")]) 500 in
  (forall response body,
      http w GET url None = inr response -> json response = inr body ->
      result (get_user cfg user_id w) = inr (jsonify body (status_code response))) /\
  (forall response e,
      http w GET url None = inr response -> json response = inl e ->
      result (get_user cfg user_id w) = inr unreachable) /\
  (forall e,
      http w GET url None = inl e ->
      result (get_user cfg user_id w) = inr unreachable) /\
  http_calls (trace (get_user cfg user_id w)) = [Http GET url None].
Proof.
  cbv zeta. repeat split.
  - intros response body Hcall Hbody. rewrite get_user_result, Hcall, Hbody. reflexivity.
  - intros response e Hcall Hbody. rewrite get_user_result, Hcall, Hbody. reflexivity.
  - intros e Hcall. rewrite get_user_result, Hcall. reflexivity.
  - run_view.
    destruct (http w GET _ None) as [e | response]; cbv beta iota zeta; [reflexivity |].
    destruct (json response) as [e | body]; reflexivity.
Qed.

Lemma get_user_pass_through_witness :
  let w1 := upstream_answers (inr (mkResponse 404 (inr (JObj [("error", JStr "no such user")])))) in
  let w2 := upstream_answers (inr (mkResponse 200 (inl decode_error))) in
  let w3 := upstream_answers (inl connection_error) in
  result (get_user cfg0 7 w1) = inr (jsonify (JObj [("error", JStr "no such user")]) 404) /\
  result (get_user cfg0 7 w2) = inr (jsonify (JObj [("error", JStr "API unreachable")]) 500) /\
  result (get_user cfg0 7 w3) = inr (jsonify (JObj [("error", JStr "API unreachable")]) 500).
Proof.
  cbv zeta. split; [| split].
  - apply (proj1 (get_user_pass_through cfg0 7 _)
             (mkResponse 404 (inr (JObj [("error", JStr "no such user")]))));
      reflexivity.
  - apply (proj1 (proj2 (get_user_pass_through cfg0 7 _))
             (mkResponse 200 (inl decode_error)) decode_error);
      reflexivity.
  - apply (proj1 (proj2 (proj2 (get_user_pass_through cfg0 7 _))) connection_error);
      reflexivity.
Defined.

(** * Update *)

(** What [update_user] does when the request has a JSON body and the
    forwarded call returns. *)
Lemma update_user_result (cfg : Config) (user_id : N) (request : Request) (w : World)
    (data : JSON) (response : Response) :
  request_json request = inr data ->
  http w PUT (Some (fstr (API_URL cfg) ++ "/" ++ str_nat user_id)) (Some data) = inr response ->
  result (update_user cfg user_id request w) =
  if status_code response =? 200 then
    match json response with
    | inr body => inr (jsonify (JObj [("message", JStr "User updated"); ("data", body)]) 200)
    | inl e => inl e
    end
  else
    inr (jsonify (JObj [("error", JStr "Failed to update user")]) (status_code response)).
Proof.
  intros Hdata Hcall. run_view.
  rewrite Hdata. cbv beta iota zeta. rewrite Hcall. cbv beta iota zeta.
  destruct (status_code response =? 200); [| reflexivity].
  destruct (json response) as [e | body]; reflexivity.
Qed.

(** When the forwarded call raises, [update_user] answers 500. *)
Lemma update_user_unreachable (cfg : Config) (user_id : N) (request : Request) (w : World)
    (data : JSON) (e : Exception) :
  request_json request = inr data ->
  http w PUT (Some (fstr (API_URL cfg) ++ "/" ++ str_nat user_id)) (Some data) = inl e ->
  result (update_user cfg user_id request w) =
  inr (jsonify (JObj [("error", JStr "API unreachable")]) 500).
Proof.
  intros Hdata Hcall. run_view.
  rewrite Hdata. cbv beta iota zeta. rewrite Hcall. reflexivity.
Qed.

(** The other four views let no exception of an upstream call out:
    [index], [get_user] and [delete_user] always return a response, and
    [add_user] does whenever the form is complete. *)
Lemma other_views_catch_upstream_exceptions (cfg : Config) (w : World) :
  (exists r, result (index cfg w) = inr r) /\
  (forall user_id, exists r, result (get_user cfg user_id w) = inr r) /\
  (forall user_id, exists r, result (delete_user cfg user_id w) = inr r) /\
  (forall request name email institution position phone image,
      form_fields request name email institution position phone image ->
      exists r, result (add_user cfg request w) = inr r).
Proof.
  split; [| split; [| split]].
  - run_view. run_cases; eexists; reflexivity.
  - intros user_id. run_view. run_cases; eexists; reflexivity.
  - intros user_id. run_view. run_cases; eexists; reflexivity.
  - intros request name email institution position phone image
      (Hn & He & Hi & Hp & Hph & Him).
    run_view. rewrite Hn, He, Hi, Hp, Hph, Him.
    change (url_for "index") with (@inr Exception string "/").
    run_cases; eexists; reflexivity.
Qed.

(** C2, where the code departs from it: PUT /users/7 with the upstream
    answering 200 and a body that is not JSON.  [response.json()] is
    called outside the [try], so the decode error leaves [update_user];
    the last record logged is the INFO record of the success branch, no
    ERROR record is written, and Flask answers with its own 500 page. *)
Theorem update_user_decode_error_escapes :
  let w := upstream_answers (inr (mkResponse 200 (inl decode_error))) in
  update_user cfg0 7 update_7 w =
    (inl decode_error,
     [ Log INFO "Update user: 7";
       Http PUT (Some "http://api/users/7") (Some (JObj [("name", JStr "B")]));
       Log INFO "Update status: 200";
       Log INFO "User updated: 7" ]) /\
  fst (wsgi_app cfg0 update_7 w) = ErrorPage 500.
Proof.
  split; vm_compute; reflexivity.
Qed.

(** C7, where the code departs from it: the forwarded call of
    PUT /users/7 does not raise, the upstream status is 200, and the
    gateway does not answer {"message": "User updated", "data": ...}: the
    body of the upstream is not JSON and the view raises instead. *)
Theorem update_user_200_without_success_response :
  let w := upstream_answers (inr (mkResponse 200 (inl decode_error))) in
  http w PUT (Some "http://api/users/7") (Some (JObj [("name", JStr "B")]))
    = inr (mkResponse 200 (inl decode_error)) /\
  result (update_user cfg0 7 update_7 w) = inl decode_error /\
  forall data status,
    result (update_user cfg0 7 update_7 w) <>
    inr (jsonify (JObj [("message", JStr "User updated"); ("data", data)]) status).
Proof.
  cbv zeta. split; [reflexivity | split; [vm_compute; reflexivity |]].
  intros data status H. vm_compute in H. discriminate H.
Qed.

(** The part of the update contract that the code keeps: with a JSON
    body upstream, 200 and only 200 gives the success response, and any
    other status gives the generic error with that status. *)
Lemma update_user_status_branches (cfg : Config) (user_id : N) (request : Request)
    (w : World) (data : JSON) (response : Response) :
  request_json request = inr data ->
  http w PUT (Some (fstr (API_URL cfg) ++ "/" ++ str_nat user_id)) (Some data) = inr response ->
  (status_code response = 200 ->
   forall body, json response = inr body ->
     result (update_user cfg user_id request w) =
     inr (jsonify (JObj [("message", JStr "User updated"); ("data", body)]) 200)) /\
  (status_code response <> 200 ->
   result (update_user cfg user_id request w) =
   inr (jsonify (JObj [("error", JStr "Failed to update user")]) (status_code response))).
Proof.
  intros Hdata Hcall. rewrite (update_user_result _ _ _ _ _ _ Hdata Hcall). split.
  - intros Hst body Hbody. rewrite Hst, Hbody. reflexivity.
  - intros Hst. apply Z.eqb_neq in Hst. rewrite Hst. reflexivity.
Qed.

(** * Delete *)

(** C6: for every delete request whose upstream call returns, status
    204 gives 200 with {"message": "User deleted successfully"} whatever
    the upstream body is; any other status gives the upstream JSON body
    with the upstream status, and when that body does not parse, the
    upstream status with {"error": "Unexpected empty response"}. *)
Theorem delete_user_status_mapping (cfg : Config) (user_id : N) (w : World)
    (response : Response) :
  http w DELETE (Some (fstr (API_URL cfg) ++ "/" ++ str_nat user_id)) None = inr response ->
  (status_code response = 204 ->
   result (delete_user cfg user_id w) =
   inr (jsonify (JObj [("message", JStr "User deleted successfully")]) 200)) /\
  (status_code response <> 204 ->
   forall body, json response = inr body ->
     result (delete_user cfg user_id w) = inr (jsonify body (status_code response))) /\
  (status_code response <> 204 ->
   forall e, json response = inl e ->
     result (delete_user cfg user_id w) =
     inr (jsonify (JObj [("error", JStr "Unexpected empty response")]) (status_code response))).
Proof.
  intros Hcall. repeat split.
  - intros Hst. run_view. rewrite Hcall. cbv beta iota zeta. rewrite Hst. reflexivity.
  - intros Hst body Hbody. apply Z.eqb_neq in Hst. run_view.
    rewrite Hcall. cbv beta iota zeta. rewrite Hst, Hbody. reflexivity.
  - intros Hst e Hbody. apply Z.eqb_neq in Hst. run_view.
    rewrite Hcall. cbv beta iota zeta. rewrite Hst, Hbody. reflexivity.
Qed.

Lemma delete_user_status_mapping_witness :
  let gone := mkResponse 204 (inr (JStr "ignored")) in
  let missing := mkResponse 404 (inr (JObj [("error", JStr "no such user")])) in
  let broken := mkResponse 502 (inl decode_error) in
  result (delete_user cfg0 7 (upstream_answers (inr gone))) =
    inr (jsonify (JObj [("message", JStr "User deleted successfully")]) 200) /\
  result (delete_user cfg0 7 (upstream_answers (inr missing))) =
    inr (jsonify (JObj [("error", JStr "no such user")]) 404) /\
  result (delete_user cfg0 7 (upstream_answers (inr broken))) =
    inr (jsonify (JObj [("error", JStr "Unexpected empty response")]) 502).
Proof.
  cbv zeta. split; [| split].
  - apply (proj1 (delete_user_status_mapping cfg0 7 (upstream_answers _) _ eq_refl)).
    reflexivity.
  - apply (proj1 (proj2 (delete_user_status_mapping cfg0 7 (upstream_answers _)
                           (mkResponse 404 _) eq_refl))).
    + discriminate.
    + reflexivity.
  - apply (proj2 (proj2 (delete_user_status_mapping cfg0 7 (upstream_answers _)
                           (mkResponse 502 _) eq_refl))) with (e := decode_error).
    + discriminate.
    + reflexivity.
Defined.

(** * Index *)

(** [index] returns the rendered page in every world. *)
Lemma index_renders (cfg : Config) (w : World) :
  exists users,
    result (index cfg w) = inr (render_template "index.html" users (s3_bucket_base cfg)).
Proof.
  run_view.
  destruct (http w GET (API_URL cfg) None) as [e | response]; cbv beta iota zeta.
  - exists (JArr []). reflexivity.
  - destruct (json response) as [e | users].
    + exists (JArr []). reflexivity.
    + exists users. reflexivity.
Qed.

(** C8: for every index request, if the upstream list call raises (a
    network error, a timeout) or returns a body that is not JSON, the
    view logs the error, puts the empty list in place of the users and
    renders index.html; and in every world GET / is answered with the
    rendered page, status 200, never a 500. *)
Theorem index_survives_upstream_outage (cfg : Config) (w : World) :
  ((exists e, http w GET (API_URL cfg) None = inl e) \/
   (exists response e, http w GET (API_URL cfg) None = inr response /\ json response = inl e) ->
   result (index cfg w) = inr (render_template "index.html" (JArr []) (s3_bucket_base cfg)) /\
   exists msg, In (Log ERROR msg) (trace (index cfg w))) /\
  (forall request,
      method request = GET -> path request = "/" ->
      exists users,
        fst (wsgi_app cfg request w) = RenderedTemplate "index.html" users (s3_bucket_base cfg) /\
        status_of (fst (wsgi_app cfg request w)) = 200).
Proof.
  split.
  - intros [[e Hcall] | (response & e & Hcall & Hbody)]; run_view; rewrite Hcall;
      cbv beta iota zeta; try rewrite Hbody; (split; [reflexivity |]);
      eexists; simpl; eauto.
  - intros request Hm Hp. unfold wsgi_app. rewrite Hm, Hp.
    change (match_request GET "/") with
      (@inr Exception (View * list (string * N)) (v_index, [])).
    cbv beta iota. unfold dispatch_request.
    destruct (index_renders cfg w) as [users Husers]. unfold result in Husers.
    destruct (index cfg w) as [r t]. simpl in Husers. subst r.
    exists users. split; reflexivity.
Qed.

Lemma index_survives_upstream_outage_witness :
  result (index cfg0 (upstream_answers (inl connection_error))) =
    inr (render_template "index.html" (JArr []) "https://bkt.s3.us-east-1.amazonaws.com/") /\
  result (index cfg0 (upstream_answers (inr (mkResponse 200 (inl decode_error))))) =
    inr (render_template "index.html" (JArr []) "https://bkt.s3.us-east-1.amazonaws.com/") /\
  status_of (fst (wsgi_app cfg0 (request_of GET "/") (upstream_answers (inl connection_error))))
    = 200.
Proof.
  split; [| split].
  - apply (proj1 (index_survives_upstream_outage cfg0 (upstream_answers (inl connection_error)))).
    left. exists connection_error. reflexivity.
  - apply (proj1 (index_survives_upstream_outage cfg0
                    (upstream_answers (inr (mkResponse 200 (inl decode_error)))))).
    right. exists (mkResponse 200 (inl decode_error)), decode_error. split; reflexivity.
  - destruct (proj2 (index_survives_upstream_outage cfg0 (upstream_answers (inl connection_error)))
                (request_of GET "/") eq_refl eq_refl) as [users [_ Hstatus]].
    exact Hstatus.
Defined.

(** * Create *)

(** [url_for("index")] is the root path. *)
Lemma url_for_index : url_for "index" = inr "/".
Proof. reflexivity. Qed.

(** The last step of [add_user] makes one upstream call, the POST of
    [user_data], and no upload. *)
Lemma add_user_store_effects (cfg : Config)
    (name email institution position phone image_url : string) (w : World) :
  http_calls (trace (add_user_store cfg name email institution position phone image_url w)) =
    [Http POST (API_URL cfg)
       (Some (user_data name email institution position phone image_url))] /\
  uploads (trace (add_user_store cfg name email institution position phone image_url w)) = [].
Proof.
  run_view. rewrite url_for_index. run_cases; split; reflexivity.
Qed.

(** C4: for every create request whose form is complete, when the
    email pre-check GET <API_URL>?email=<email> returns 409 the gateway
    answers 409 with {"error": "Email already exists"}, and when it
    raises the gateway answers 500 with
    {"error": "API Gateway unreachable"}; in both cases the pre-check is
    the only upstream call of the request (no POST) and nothing is
    uploaded. *)
Theorem add_user_precheck_short_circuit (cfg : Config) (request : Request) (w : World)
    (name email institution position phone : string) (image : FileStorage) :
  form_fields request name email institution position phone image ->
  let url := Some (fstr (API_URL cfg) ++ "?email=" ++ email) in
  (forall check,
      http w GET url None = inr check -> status_code check = 409 ->
      result (add_user cfg request w) =
        inr (jsonify (JObj [("error", JStr "Email already exists")]) 409) /\
      uploads (trace (add_user cfg request w)) = [] /\
      http_calls (trace (add_user cfg request w)) = [Http GET url None]) /\
  (forall e,
      http w GET url None = inl e ->
      result (add_user cfg request w) =
        inr (jsonify (JObj [("error", JStr "API Gateway unreachable")]) 500) /\
      uploads (trace (add_user cfg request w)) = [] /\
      http_calls (trace (add_user cfg request w)) = [Http GET url None]).
Proof.
  intros (Hn & He & Hi & Hp & Hph & Him). cbv zeta. split.
  - intros check Hcall Hst. run_view.
    rewrite Hn, He, Hi, Hp, Hph, Him. cbv beta iota zeta.
    rewrite Hcall. cbv beta iota zeta. rewrite Hst.
    repeat split; reflexivity.
  - intros e Hcall. run_view.
    rewrite Hn, He, Hi, Hp, Hph, Him. cbv beta iota zeta.
    rewrite Hcall.
    repeat split; reflexivity.
Qed.

Lemma add_user_precheck_short_circuit_witness :
  let taken := upstream_answers (inr (mkResponse 409 (inr JNull))) in
  let down := upstream_answers (inl connection_error) in
  (result (add_user cfg0 create_A_with_image taken) =
     inr (jsonify (JObj [("error", JStr "Email already exists")]) 409) /\
   uploads (trace (add_user cfg0 create_A_with_image taken)) = [] /\
   http_calls (trace (add_user cfg0 create_A_with_image taken)) =
     [Http GET (Some "http://api/users?email=a@x.com") None]) /\
  (result (add_user cfg0 create_A_with_image down) =
     inr (jsonify (JObj [("error", JStr "API Gateway unreachable")]) 500) /\
   uploads (trace (add_user cfg0 create_A_with_image down)) = [] /\
   http_calls (trace (add_user cfg0 create_A_with_image down)) =
     [Http GET (Some "http://api/users?email=a@x.com") None]).
Proof.
  cbv zeta. split.
  - apply (proj1 (add_user_precheck_short_circuit cfg0 create_A_with_image
                    (upstream_answers (inr (mkResponse 409 (inr JNull))))
                    "A" "a@x.com" "I" "P" "000" (mkFile "a.png" [])
                    (conj eq_refl (conj eq_refl (conj eq_refl
                       (conj eq_refl (conj eq_refl eq_refl))))))
             (mkResponse 409 (inr JNull)));
      reflexivity.
  - apply (proj2 (add_user_precheck_short_circuit cfg0 create_A_with_image
                    (upstream_answers (inl connection_error))
                    "A" "a@x.com" "I" "P" "000" (mkFile "a.png" [])
                    (conj eq_refl (conj eq_refl (conj eq_refl
                       (conj eq_refl (conj eq_refl eq_refl))))))
             connection_error);
      reflexivity.
Defined.

(** C5: for every create request whose form is complete, when the
    pre-check returns a status other than 409, the upload (if the file
    field holds a file) succeeds, and the upstream POST returns a status
    other than 409, the gateway answers with a redirect to the index
    route; in particular, with fields (name="A", email="a@x.com",
    institution="I", position="P", phone="000"), an empty file field,
    pre-check status 200 and create status 201, POST /users is answered
    with a redirect to /. *)
Theorem add_user_redirects_to_index (cfg : Config) (w : World) :
  (forall request name email institution position phone image check response,
      form_fields request name email institution position phone image ->
      http w GET (Some (fstr (API_URL cfg) ++ "?email=" ++ email)) None = inr check ->
      status_code check <> 409 ->
      (file_truthy image = true ->
       upload w image (S3_BUCKET cfg) ("users/" ++ filename image) = inr tt) ->
      http w POST (API_URL cfg)
        (Some (user_data name email institution position phone (image_url_of cfg image)))
        = inr response ->
      status_code response <> 409 ->
      result (add_user cfg request w) = inr (redirect "/")) /\
  (forall request image check response,
      method request = POST -> path request = "/users" ->
      form_fields request "A" "a@x.com" "I" "P" "000" image ->
      file_truthy image = false ->
      http w GET (Some (fstr (API_URL cfg) ++ "?email=a@x.com")) None = inr check ->
      status_code check = 200 ->
      http w POST (API_URL cfg) (Some (user_data "A" "a@x.com" "I" "P" "000" "")) = inr response ->
      status_code response = 201 ->
      fst (wsgi_app cfg request w) = RedirectResponse "/").
Proof.
  assert (Hgen : forall request name email institution position phone image check response,
      form_fields request name email institution position phone image ->
      http w GET (Some (fstr (API_URL cfg) ++ "?email=" ++ email)) None = inr check ->
      status_code check <> 409 ->
      (file_truthy image = true ->
       upload w image (S3_BUCKET cfg) ("users/" ++ filename image) = inr tt) ->
      http w POST (API_URL cfg)
        (Some (user_data name email institution position phone (image_url_of cfg image)))
        = inr response ->
      status_code response <> 409 ->
      result (add_user cfg request w) = inr (redirect "/")).
  { intros request name email institution position phone image check response
      (Hn & He & Hi & Hp & Hph & Him) Hcheck Hst Hup Hpost Hst'.
    apply Z.eqb_neq in Hst, Hst'. unfold image_url_of in Hpost.
    run_view.
    rewrite Hn, He, Hi, Hp, Hph, Him. cbv beta iota zeta.
    rewrite Hcheck. cbv beta iota zeta. rewrite Hst.
    destruct (file_truthy image) eqn:Himg; cbv beta iota zeta.
    - rewrite (Hup eq_refl). cbv beta iota zeta.
      rewrite Hpost. cbv beta iota zeta. rewrite Hst', url_for_index. reflexivity.
    - rewrite Hpost. cbv beta iota zeta. rewrite Hst', url_for_index. reflexivity. }
  split; [exact Hgen |].
  intros request image check response Hm Hp Hform Himg Hcheck Hst Hpost Hst'.
  assert (Hres : result (add_user cfg request w) = inr (redirect "/")).
  { apply (Hgen request "A" "a@x.com" "I" "P" "000" image check response); trivial.
    - rewrite Hst. discriminate.
    - rewrite Himg. discriminate.
    - unfold image_url_of. rewrite Himg. exact Hpost.
    - rewrite Hst'. discriminate. }
  unfold wsgi_app. rewrite Hm, Hp.
  change (match_request POST "/users") with
    (@inr Exception (View * list (string * N)) (v_add_user, [])).
  cbv beta iota. unfold dispatch_request.
  unfold result in Hres. destruct (add_user cfg request w) as [r t].
  simpl in Hres. subst r. reflexivity.
Qed.

Lemma add_user_redirects_to_index_witness :
  let ok := upstream_create (inr (mkResponse 200 (inr (JArr []))))
                            (inr (mkResponse 201 (inr user7))) in
  result (add_user cfg0 create_A_with_image ok) = inr (redirect "/") /\
  fst (wsgi_app cfg0 create_A ok) = RedirectResponse "/".
Proof.
  cbv zeta. split.
  - apply (proj1 (add_user_redirects_to_index cfg0 _)
             create_A_with_image "A" "a@x.com" "I" "P" "000" (mkFile "a.png" [])
             (mkResponse 200 (inr (JArr []))) (mkResponse 201 (inr user7))).
    + repeat split.
    + reflexivity.
    + discriminate.
    + reflexivity.
    + reflexivity.
    + discriminate.
  - apply (proj2 (add_user_redirects_to_index cfg0 _)
             create_A (mkFile "" [])
             (mkResponse 200 (inr (JArr []))) (mkResponse 201 (inr user7)));
      try reflexivity.
    repeat split.
Defined.

(** C9: for every create request whose file field is empty (falsy), no
    upload is attempted, and every JSON body sent upstream has
    image_url equal to the empty string; and when the form is complete
    and the pre-check passes, such a body is indeed POSTed: user_data
    with image_url = "". *)
Theorem add_user_without_file (cfg : Config) (request : Request) (w : World) :
  (forall image, assoc "image" (files request) = Some image -> file_truthy image = false) ->
  uploads (trace (add_user cfg request w)) = [] /\
  (forall m url body,
      In (Http m url (Some body)) (trace (add_user cfg request w)) ->
      m = POST /\ json_get "image_url" body = Some (JStr "")) /\
  (forall name email institution position phone image check,
      form_fields request name email institution position phone image ->
      http w GET (Some (fstr (API_URL cfg) ++ "?email=" ++ email)) None = inr check ->
      status_code check <> 409 ->
      In (Http POST (API_URL cfg)
            (Some (user_data name email institution position phone "")))
         (trace (add_user cfg request w))).
Proof.
  intros Hfalsy. split; [| split].
  - run_view. rewrite url_for_index.
    destruct (assoc "image" (files request)) as [image |] eqn:Him.
    + rewrite (Hfalsy image eq_refl). run_cases; reflexivity.
    + run_cases; reflexivity.
  - intros m url body. run_view. rewrite url_for_index.
    destruct (assoc "image" (files request)) as [image |] eqn:Him.
    + rewrite (Hfalsy image eq_refl).
      run_cases; simpl; intros Hin;
        repeat (destruct Hin as [Hin | Hin]; try discriminate Hin; try contradiction);
        inversion Hin; subst; split; reflexivity.
    + run_cases; simpl; intros Hin;
        repeat (destruct Hin as [Hin | Hin]; try discriminate Hin; try contradiction).
  - intros name email institution position phone image check
      (Hn & He & Hi & Hp & Hph & Him) Hcheck Hst.
    apply Z.eqb_neq in Hst.
    run_view. rewrite url_for_index.
    rewrite Hn, He, Hi, Hp, Hph, Him. cbv beta iota zeta.
    rewrite Hcheck. cbv beta iota zeta. rewrite Hst.
    rewrite (Hfalsy image Him).
    run_cases; simpl; auto 10.
Qed.

Lemma add_user_without_file_witness :
  let ok := upstream_create (inr (mkResponse 200 (inr (JArr []))))
                            (inr (mkResponse 201 (inr user7))) in
  uploads (trace (add_user cfg0 create_A ok)) = [] /\
  In (Http POST (Some "http://api/users") (Some (user_data "A" "a@x.com" "I" "P" "000" "")))
     (trace (add_user cfg0 create_A ok)).
Proof.
  cbv zeta.
  assert (Hfalsy : forall image,
             assoc "image" (files create_A) = Some image -> file_truthy image = false).
  { intros image H. injection H as <-. reflexivity. }
  split.
  - exact (proj1 (add_user_without_file cfg0 create_A _ Hfalsy)).
  - apply (proj2 (proj2 (add_user_without_file cfg0 create_A _ Hfalsy))
             "A" "a@x.com" "I" "P" "000" (mkFile "" []) (mkResponse 200 (inr (JArr [])))).
    + repeat split.
    + reflexivity.
    + discriminate.
Defined.

(** * Routing *)

Lemma split_slash_nonempty (s : string) : split_slash s <> [].
Proof.
  induction s as [| c rest IH]; simpl; [discriminate |].
  destruct (Ascii.eqb c "/"); [discriminate |].
  destruct (split_slash rest); [contradiction | discriminate].
Qed.

(** A string without a slash is a single part. *)
Lemma split_slash_part (s : string) : no_slash s = true -> split_slash s = [s].
Proof.
  induction s as [| c rest IH]; simpl; [reflexivity |].
  intros H. apply andb_prop in H as [Hc Hrest].
  apply negb_true_iff in Hc. rewrite Hc, (IH Hrest). reflexivity.
Qed.

(** The first slash ends the first part. *)
Lemma split_slash_app (a b : string) :
  no_slash a = true -> split_slash (a ++ String "/" b) = a :: split_slash b.
Proof.
  induction a as [| c rest IH]; simpl; [reflexivity |].
  intros H. apply andb_prop in H as [Hc Hrest].
  apply negb_true_iff in Hc. rewrite Hc, (IH Hrest). reflexivity.
Qed.

(** Splitting loses nothing. *)
Lemma join_split_slash (s : string) : join_slash (split_slash s) = s.
Proof.
  induction s as [| c rest IH]; simpl; [reflexivity |].
  destruct (Ascii.eqb c "/") eqn:Hc.
  - apply Ascii.eqb_eq in Hc. subst c.
    generalize (split_slash_nonempty rest).
    destruct (split_slash rest) as [| part parts]; [contradiction |].
    intros _. change (join_slash ("" :: part :: parts))
      with (String "/" (join_slash (part :: parts))).
    rewrite IH. reflexivity.
  - generalize (split_slash_nonempty rest).
    destruct (split_slash rest) as [| part parts]; [contradiction |].
    intros _. destruct parts as [| part' parts'].
    + simpl in *. rewrite IH. reflexivity.
    + change (join_slash (String c part :: part' :: parts'))
        with (String c (join_slash (part :: part' :: parts'))).
      rewrite IH. reflexivity.
Qed.

(** What the [int] converter takes is made of digits, so holds no slash. *)
Lemma digits_no_slash (s : string) (d : Decimal.uint) :
  NilEmpty.uint_of_string s = Some d -> no_slash s = true.
Proof.
  revert d. induction s as [| c rest IH]; simpl; [reflexivity |].
  intros d H. destruct (NilEmpty.uint_of_string rest) as [d' |]; [| discriminate H].
  rewrite (IH d' eq_refl), andb_true_r.
  apply uint_of_char_spec in H.
  repeat (destruct H as [[-> _] | H]; [reflexivity |]).
  destruct H as [-> _]. reflexivity.
Qed.

Lemma int_converter_no_slash (s : string) (n : N) :
  int_converter s = Some n -> no_slash s = true.
Proof.
  unfold int_converter, NilZero.uint_of_string.
  destruct s as [| c rest]; [discriminate |].
  destruct (NilEmpty.uint_of_string (String c rest)) as [d |] eqn:Hd; [| discriminate].
  intros _. exact (digits_no_slash _ _ Hd).
Qed.

(** The converter reads back what [f"{user_id}"] prints. *)
Lemma int_converter_str_nat (n : N) : int_converter (str_nat n) = Some n.
Proof.
  unfold int_converter, str_nat.
  rewrite NilZero.usu.
  - simpl. rewrite DecimalN.Unsigned.of_to. reflexivity.
  - destruct n as [| p]; simpl; [discriminate |].
    apply DecimalPos.Unsigned.to_uint_nonnil.
Qed.

(** DELETE /users/<digits>/delete goes to [delete_user]. *)
Lemma match_request_delete (digits : string) (n : N) :
  int_converter digits = Some n ->
  match_request DELETE ("/users/" ++ digits ++ "/delete") =
  inr (v_delete_user, [("user_id", n)]).
Proof.
  intros Hint. unfold match_request.
  change (path_parts ("/users/" ++ digits ++ "/delete"))
    with (Some (split_slash ("users" ++ String "/" (digits ++ String "/" "delete")))).
  rewrite (split_slash_app "users") by reflexivity.
  rewrite (split_slash_app digits) by exact (int_converter_no_slash _ _ Hint).
  rewrite (split_slash_part "delete") by reflexivity.
  cbv beta iota zeta.
  unfold url_map, flat_map, rule_matches.
  change (rule_segments (mkRule "/" [GET] v_index)) with [Static ""].
  change (rule_segments (mkRule "/users" [POST] v_add_user)) with [Static "users"].
  change (rule_segments (mkRule "/users/<int:user_id>/delete" [DELETE] v_delete_user))
    with [Static "users"; IntConverter "user_id"; Static "delete"].
  change (rule_segments (mkRule "/users/<int:user_id>" [GET] v_get_user))
    with [Static "users"; IntConverter "user_id"].
  change (rule_segments (mkRule "/users/<int:user_id>" [PUT; PATCH] v_update_user))
    with [Static "users"; IntConverter "user_id"].
  simpl match_segments. rewrite Hint. reflexivity.
Qed.

(** DELETE /users/<digits> matches the rules of [get_user] and
    [update_user], and neither allows DELETE. *)
Lemma match_request_delete_users_id (digits : string) (n : N) :
  int_converter digits = Some n ->
  match_request DELETE ("/users/" ++ digits) = inl MethodNotAllowed.
Proof.
  intros Hint. unfold match_request.
  change (path_parts ("/users/" ++ digits))
    with (Some (split_slash ("users" ++ String "/" digits))).
  rewrite (split_slash_app "users") by reflexivity.
  rewrite (split_slash_part digits) by exact (int_converter_no_slash _ _ Hint).
  cbv beta iota zeta.
  unfold url_map, flat_map, rule_matches.
  change (rule_segments (mkRule "/" [GET] v_index)) with [Static ""].
  change (rule_segments (mkRule "/users" [POST] v_add_user)) with [Static "users"].
  change (rule_segments (mkRule "/users/<int:user_id>/delete" [DELETE] v_delete_user))
    with [Static "users"; IntConverter "user_id"; Static "delete"].
  change (rule_segments (mkRule "/users/<int:user_id>" [GET] v_get_user))
    with [Static "users"; IntConverter "user_id"].
  change (rule_segments (mkRule "/users/<int:user_id>" [PUT; PATCH] v_update_user))
    with [Static "users"; IntConverter "user_id"].
  simpl match_segments. rewrite Hint. reflexivity.
Qed.

(** A path is its parts joined by slashes, after the leading one. *)
Lemma path_parts_join (p : string) (parts : list string) :
  path_parts p = Some parts -> p = String "/" (join_slash parts).
Proof.
  unfold path_parts. destruct p as [| c rest]; [discriminate |].
  destruct c as [[|] [|] [|] [|] [|] [|] [|] [|]]; try discriminate.
  intros [= <-]. rewrite join_split_slash. reflexivity.
Qed.

(** The only requests that reach [delete_user] are the DELETE requests
    on /users/<digits>/delete. *)
Lemma delete_user_only_route (m : Method) (p : string) (args : list (string * N)) :
  match_request m p = inr (v_delete_user, args) ->
  m = DELETE /\
  exists digits n,
    p = "/users/" ++ digits ++ "/delete" /\
    int_converter digits = Some n /\
    args = [("user_id", n)].
Proof.
  unfold match_request.
  destruct (path_parts p) as [parts |] eqn:Hparts; [| discriminate].
  apply path_parts_join in Hparts. subst p.
  unfold url_map, flat_map, rule_matches.
  change (rule_segments (mkRule "/" [GET] v_index)) with [Static ""].
  change (rule_segments (mkRule "/users" [POST] v_add_user)) with [Static "users"].
  change (rule_segments (mkRule "/users/<int:user_id>/delete" [DELETE] v_delete_user))
    with [Static "users"; IntConverter "user_id"; Static "delete"].
  change (rule_segments (mkRule "/users/<int:user_id>" [GET] v_get_user))
    with [Static "users"; IntConverter "user_id"].
  change (rule_segments (mkRule "/users/<int:user_id>" [PUT; PATCH] v_update_user))
    with [Static "users"; IntConverter "user_id"].
  destruct parts as [| a [| b [| c [| d rest]]]]; cbn [match_segments].
  - simpl; destruct m; discriminate.
  - destruct (String.eqb "" a), (String.eqb "users" a); simpl; destruct m; discriminate.
  - destruct (String.eqb "" a), (String.eqb "users" a), (int_converter b);
      simpl; destruct m; discriminate.
  - destruct (String.eqb "users" a) eqn:Ha.
    + apply String.eqb_eq in Ha. subst a.
      change (String.eqb "" "users") with false. cbv iota.
      destruct (int_converter b) as [n |] eqn:Hb;
        [| simpl; destruct m; discriminate].
      destruct (String.eqb "delete" c) eqn:Hc;
        [| simpl; destruct m; discriminate].
      apply String.eqb_eq in Hc. subst c.
      simpl. destruct m; try discriminate.
      intros [= <-]. split; [reflexivity |].
      exists b, n. repeat split. exact Hb.
    + destruct (String.eqb "" a); simpl; destruct m; discriminate.
  - destruct (String.eqb "" a), (String.eqb "users" a), (int_converter b),
      (String.eqb "delete" c); simpl; destruct m; discriminate.
Qed.

(** [delete_user] makes one upstream call, DELETE <API_URL>/<id>. *)
Lemma delete_user_calls (cfg : Config) (user_id : N) (w : World) :
  http_calls (trace (delete_user cfg user_id w)) =
  [Http DELETE (Some (fstr (API_URL cfg) ++ "/" ++ str_nat user_id)) None].
Proof.
  run_view. run_cases; reflexivity.
Qed.

(** C3, as stated, fails: DELETE /users/7 reaches no view.  The path
    matches the rules of [get_user] and [update_user] only, so Flask
    answers 405 and no upstream call is made, even with an upstream that
    would answer 204. *)
Lemma delete_not_exposed_at_users_id :
  match_request DELETE "/users/7" = inl MethodNotAllowed /\
  wsgi_app cfg0 (request_of DELETE "/users/7")
    (upstream_answers (inr (mkResponse 204 (inr JNull)))) = (ErrorPage 405, []).
Proof.
  split; reflexivity.
Qed.

(** C3, amended: the delete operation is exposed at path
    /users/<id>/delete with method DELETE, and it forwards
    DELETE <API_URL>/<id> to the upstream, as its only upstream call;
    DELETE on /users/<id> is answered 405 without any upstream call. *)
Theorem delete_exposed_at_users_id_delete (cfg : Config) (request : Request) (w : World)
    (user_id : N) :
  method request = DELETE ->
  (path request = "/users/" ++ str_nat user_id ++ "/delete" ->
   match_request (method request) (path request) = inr (v_delete_user, [("user_id", user_id)]) /\
   wsgi_app cfg request w =
     (match result (delete_user cfg user_id w) with
      | inr response => response
      | inl e => handle_exception e
      end, trace (delete_user cfg user_id w)) /\
   http_calls (snd (wsgi_app cfg request w)) =
     [Http DELETE (Some (fstr (API_URL cfg) ++ "/" ++ str_nat user_id)) None]) /\
  (path request = "/users/" ++ str_nat user_id ->
   wsgi_app cfg request w = (ErrorPage 405, [])).
Proof.
  intros Hm. split.
  - intros Hp.
    assert (Hroute : match_request (method request) (path request) =
                     inr (v_delete_user, [("user_id", user_id)])).
    { rewrite Hm, Hp. apply match_request_delete, int_converter_str_nat. }
    assert (Happ : wsgi_app cfg request w =
                   (match result (delete_user cfg user_id w) with
                    | inr response => response
                    | inl e => handle_exception e
                    end, trace (delete_user cfg user_id w))).
    { unfold wsgi_app. rewrite Hroute. cbv beta iota.
      unfold dispatch_request, view_arg, bind, ret, result, trace.
      change (assoc "user_id" [("user_id", user_id)]) with (Some user_id).
      cbv beta iota.
      destruct (delete_user cfg user_id w) as [[e | response] t]; reflexivity. }
    split; [exact Hroute | split; [exact Happ |]].
    rewrite Happ. apply delete_user_calls.
  - intros Hp. unfold wsgi_app. rewrite Hm, Hp.
    rewrite (match_request_delete_users_id _ user_id (int_converter_str_nat user_id)).
    reflexivity.
Qed.

Lemma delete_exposed_at_users_id_delete_witness :
  let w := upstream_answers (inr (mkResponse 204 (inr JNull))) in
  wsgi_app cfg0 (request_of DELETE "/users/7/delete") w =
    (jsonify (JObj [("message", JStr "User deleted successfully")]) 200,
     [ Log INFO "Delete user request: 7";
       Http DELETE (Some "http://api/users/7") None;
       Log INFO "Delete status: 204";
       Log INFO "User deleted: 7" ]) /\
  wsgi_app cfg0 (request_of DELETE "/users/7") w = (ErrorPage 405, []).
Proof.
  cbv zeta. split.
  - exact (proj1 (proj2 (proj1 (delete_exposed_at_users_id_delete cfg0
                                  (request_of DELETE "/users/7/delete")
                                  (upstream_answers (inr (mkResponse 204 (inr JNull))))
                                  7%N eq_refl) eq_refl))).
  - exact (proj2 (delete_exposed_at_users_id_delete cfg0
                    (request_of DELETE "/users/7")
                    (upstream_answers (inr (mkResponse 204 (inr JNull))))
                    7%N eq_refl) eq_refl).
Defined.

(** * Image links *)

Lemma append_assoc (a b c : string) : (a ++ b) ++ c = a ++ (b ++ c).
Proof.
  induction a as [| ch rest IH]; simpl; [reflexivity | rewrite IH; reflexivity].
Qed.

(** A string is a prefix of itself followed by anything. *)
Lemma prefix_append (s t : string) : String.prefix s (s ++ t) = true.
Proof.
  induction s as [| c rest IH]; simpl.
  - destruct t; reflexivity.
  - destruct (ascii_dec c c) as [_ | Hne]; [exact IH | contradiction Hne; reflexivity].
Qed.

Lemma prefix_app (a x y : string) : String.prefix (a ++ x) (a ++ y) = String.prefix x y.
Proof.
  induction a as [| c rest IH]; simpl; [reflexivity |].
  destruct (ascii_dec c c) as [_ | Hne]; [exact IH | contradiction Hne; reflexivity].
Qed.

(** C10: for every bucket and region (non-empty or not, set or not)
    and every object key, the bucket base URL given to the index page is
    not a prefix of the image_url stored at creation: both start with
    https://<bucket>.s3 and then the first continues with a dot
    (host <bucket>.s3.<region>.amazonaws.com) and the second with a
    hyphen (host <bucket>.s3-<region>.amazonaws.com). *)
Theorem s3_bucket_base_not_prefix_of_image_url (cfg : Config) (image_filename : string) :
  let scheme_bucket := "https://" ++ fstr (S3_BUCKET cfg) ++ ".s3" in
  let tail := fstr (AWS_REGION cfg) ++ ".amazonaws.com/" in
  s3_bucket_base cfg = scheme_bucket ++ String "." tail /\
  s3_object_url cfg image_filename = scheme_bucket ++ String "-" (tail ++ image_filename) /\
  String.prefix (s3_bucket_base cfg) (s3_object_url cfg image_filename) = false /\
  s3_bucket_base cfg ++ image_filename <> s3_object_url cfg image_filename.
Proof.
  cbv zeta.
  assert (Hbase : s3_bucket_base cfg =
                  ("https://" ++ fstr (S3_BUCKET cfg) ++ ".s3")
                    ++ String "." (fstr (AWS_REGION cfg) ++ ".amazonaws.com/")).
  { unfold s3_bucket_base. rewrite !append_assoc. reflexivity. }
  assert (Hobj : s3_object_url cfg image_filename =
                 ("https://" ++ fstr (S3_BUCKET cfg) ++ ".s3")
                   ++ String "-" ((fstr (AWS_REGION cfg) ++ ".amazonaws.com/")
                                    ++ image_filename)).
  { unfold s3_object_url. rewrite !append_assoc. reflexivity. }
  assert (Hpre : String.prefix (s3_bucket_base cfg) (s3_object_url cfg image_filename) = false).
  { rewrite Hbase, Hobj, prefix_app. reflexivity. }
  repeat split; trivial.
  intros Heq.
  assert (Htrue : String.prefix (s3_bucket_base cfg) (s3_object_url cfg image_filename) = true).
  { rewrite <- Heq. apply prefix_append. }
  rewrite Hpre in Htrue. discriminate Htrue.
Qed.

(** * The route table

    Routing is modelled as far as the decorators of [app.py] decide it:
    the rule patterns, the [int] converter and the methods.  Werkzeug's
    redirects for doubled or trailing slashes are outside the model: such
    paths are simply not matched here. *)

Ltac route_table :=
  unfold url_map, flat_map, rule_matches;
  change (rule_segments (mkRule "/" [GET] v_index)) with [Static ""];
  change (rule_segments (mkRule "/users" [POST] v_add_user)) with [Static "users"];
  change (rule_segments (mkRule "/users/<int:user_id>/delete" [DELETE] v_delete_user))
    with [Static "users"; IntConverter "user_id"; Static "delete"];
  change (rule_segments (mkRule "/users/<int:user_id>" [GET] v_get_user))
    with [Static "users"; IntConverter "user_id"];
  change (rule_segments (mkRule "/users/<int:user_id>" [PUT; PATCH] v_update_user))
    with [Static "users"; IntConverter "user_id"].

(** The parts of /users/<part>. *)
Lemma path_parts_users_id (part : string) :
  no_slash part = true -> path_parts ("/users/" ++ part) = Some ["users"; part].
Proof.
  intros Hpart.
  change (path_parts ("/users/" ++ part))
    with (Some (split_slash ("users" ++ String "/" part))).
  rewrite (split_slash_app "users") by reflexivity.
  rewrite (split_slash_part part) by exact Hpart. reflexivity.
Qed.

(** GET, PUT and PATCH on /users/<digits> go to [get_user] and
    [update_user]; POST, like DELETE, is not allowed there. *)
Lemma match_request_users_id (m : Method) (digits : string) (n : N) :
  int_converter digits = Some n ->
  match_request m ("/users/" ++ digits) =
  match m with
  | GET => inr (v_get_user, [("user_id", n)])
  | PUT | PATCH => inr (v_update_user, [("user_id", n)])
  | POST | DELETE => inl MethodNotAllowed
  end.
Proof.
  intros Hint. unfold match_request.
  rewrite path_parts_users_id by exact (int_converter_no_slash _ _ Hint).
  cbv beta iota zeta. route_table.
  simpl match_segments. rewrite Hint. destruct m; reflexivity.
Qed.


(** A routed request runs its view; the answer is what the view returns,
    or Flask's error page when the view raises. *)
Lemma wsgi_app_routed (cfg : Config) (request : Request) (w : World)
    (v : View) (args : list (string * N)) :
  match_request (method request) (path request) = inr (v, args) ->
  wsgi_app cfg request w =
  (match result (dispatch_request cfg v args request w) with
   | inr response => response
   | inl e => handle_exception e
   end, trace (dispatch_request cfg v args request w)).
Proof.
  intros Hroute. unfold wsgi_app, result, trace. rewrite Hroute.
  destruct (dispatch_request cfg v args request w) as [[e | response] t]; reflexivity.
Qed.

(** Passing the id of the route to a view. *)
Lemma dispatch_with_user_id (A : Type) (n : N) (k : N -> M A) (w : World) :
  bind (view_arg [("user_id", n)] "user_id") k w = k n w.
Proof.
  unfold bind, view_arg. change (assoc "user_id" [("user_id", n)]) with (Some n).
  unfold ret. destruct (k n w) as [r t]. reflexivity.
Qed.

(** A request reaches a view only through the route written above it. *)
Lemma match_request_sound (m : Method) (p : string) (v : View) (args : list (string * N)) :
  match_request m p = inr (v, args) ->
  match v with
  | v_index => m = GET /\ p = "/" /\ args = []
  | v_add_user => m = POST /\ p = "/users" /\ args = []
  | v_delete_user =>
      m = DELETE /\
      exists digits n, p = "/users/" ++ digits ++ "/delete" /\
                       int_converter digits = Some n /\ args = [("user_id", n)]
  | v_get_user =>
      m = GET /\
      exists digits n, p = "/users/" ++ digits /\
                       int_converter digits = Some n /\ args = [("user_id", n)]
  | v_update_user =>
      (m = PUT \/ m = PATCH) /\
      exists digits n, p = "/users/" ++ digits /\
                       int_converter digits = Some n /\ args = [("user_id", n)]
  end.
Proof.
  unfold match_request.
  destruct (path_parts p) as [parts |] eqn:Hparts; [| discriminate].
  apply path_parts_join in Hparts. subst p.
  route_table.
  destruct parts as [| a [| b [| c [| d rest]]]]; cbn [match_segments].
  - simpl; destruct m; discriminate.
  - destruct (String.eqb "users" a) eqn:Ha.
    + apply String.eqb_eq in Ha. subst a.
      change (String.eqb "" "users") with false. cbv iota.
      simpl. destruct m; try discriminate.
      intros [= <- <-]. repeat split.
    + destruct (String.eqb "" a) eqn:Ha'.
      * apply String.eqb_eq in Ha'. subst a.
        simpl. destruct m; try discriminate.
        intros [= <- <-]. repeat split.
      * simpl; destruct m; discriminate.
  - destruct (String.eqb "users" a) eqn:Ha.
    + apply String.eqb_eq in Ha. subst a.
      change (String.eqb "" "users") with false. cbv iota.
      destruct (int_converter b) as [n |] eqn:Hb;
        [| simpl; destruct m; discriminate].
      simpl. destruct m; try discriminate; intros [= <- <-];
        (split; [auto |]); exists b, n; repeat split; exact Hb.
    + destruct (String.eqb "" a); simpl; destruct m; discriminate.
  - destruct (String.eqb "users" a) eqn:Ha.
    + apply String.eqb_eq in Ha. subst a.
      change (String.eqb "" "users") with false. cbv iota.
      destruct (int_converter b) as [n |] eqn:Hb;
        [| simpl; destruct m; discriminate].
      destruct (String.eqb "delete" c) eqn:Hc;
        [| simpl; destruct m; discriminate].
      apply String.eqb_eq in Hc. subst c.
      simpl. destruct m; try discriminate.
      intros [= <- <-]. split; [reflexivity |].
      exists b, n. repeat split. exact Hb.
    + destruct (String.eqb "" a); simpl; destruct m; discriminate.
  - destruct (String.eqb "" a), (String.eqb "users" a), (int_converter b),
      (String.eqb "delete" c); simpl; destruct m; discriminate.
Qed.




(** What [index] and [get_user] do to the outside: one GET. *)
Lemma index_effects (cfg : Config) (w : World) :
  effects (trace (index cfg w)) = [Http GET (API_URL cfg) None].
Proof. run_view. run_cases; reflexivity. Qed.

Lemma get_user_effects (cfg : Config) (user_id : N) (w : World) :
  effects (trace (get_user cfg user_id w)) =
  [Http GET (Some (fstr (API_URL cfg) ++ "/" ++ str_nat user_id)) None].
Proof. run_view. run_cases; reflexivity. Qed.



(** X3: the id sent upstream is the value of the digits in the path,
    printed anew: GET /users/<digits> makes the one upstream call
    GET <API_URL>/<n> with n in decimal without leading zeros, so
    /users/007 is looked up as <API_URL>/7. *)
Theorem get_user_id_is_normalised (cfg : Config) (request : Request) (w : World)
    (digits : string) (n : N) :
  method request = GET ->
  path request = "/users/" ++ digits ->
  int_converter digits = Some n ->
  effects (snd (wsgi_app cfg request w)) =
  [Http GET (Some (fstr (API_URL cfg) ++ "/" ++ str_nat n)) None].
Proof.
  intros Hm Hp Hint.
  rewrite (wsgi_app_routed cfg request w v_get_user [("user_id", n)]).
  - cbn [snd]. unfold dispatch_request. unfold trace at 1.
    rewrite dispatch_with_user_id. apply get_user_effects.
  - rewrite Hm, Hp. apply (match_request_users_id GET _ _ Hint).
Qed.

Lemma get_user_id_is_normalised_witness :
  effects (snd (wsgi_app cfg0 (request_of GET "/users/007")
                  (upstream_answers (inr (mkResponse 200 (inr user7)))))) =
  [Http GET (Some "http://api/users/7") None].
Proof.
  exact (get_user_id_is_normalised cfg0 (request_of GET "/users/007") _ "007" 7%N
           eq_refl eq_refl eq_refl).
Defined.

(** X4: a GET request to the gateway only reads upstream: whatever the
    path and whatever the upstream answers, every call it makes is a GET
    and it uploads nothing. *)
Theorem get_requests_only_read (cfg : Config) (request : Request) (w : World) :
  method request = GET ->
  forall e, In e (effects (snd (wsgi_app cfg request w))) -> http_method e = Some GET.
Proof.
  intros Hm e.
  destruct (match_request (method request) (path request)) as [err | [v args]] eqn:Hroute.
  - unfold wsgi_app. rewrite Hroute. simpl. contradiction.
  - rewrite (wsgi_app_routed _ _ _ _ _ Hroute). cbn [snd].
    apply match_request_sound in Hroute. rewrite Hm in Hroute.
    destruct v.
    + unfold dispatch_request. rewrite index_effects.
      intros [<- | []]. reflexivity.
    + destruct Hroute as [Hroute _]. discriminate Hroute.
    + destruct Hroute as [Hroute _]. discriminate Hroute.
    + destruct Hroute as (_ & digits & n & _ & _ & ->).
      unfold dispatch_request. unfold trace. rewrite dispatch_with_user_id.
      fold (trace (get_user cfg n w)). rewrite get_user_effects.
      intros [<- | []]. reflexivity.
    + destruct Hroute as [[Hroute | Hroute] _]; discriminate Hroute.
Qed.

Lemma get_requests_only_read_witness :
  http_method (Http GET (Some "http://api/users/7") None) = Some GET.
Proof.
  apply (get_requests_only_read cfg0 (request_of GET "/users/7")
           (upstream_answers (inl connection_error)) eq_refl).
  vm_compute. left. reflexivity.
Defined.





(** * More of create *)

(** X6: a create request that lacks one of the five form fields or the
    file field is answered 400 by Flask ([request.form[...]] raises
    before the first [try]); the view has only logged that a request
    arrived: no pre-check, no upload, no POST. *)
Theorem add_user_missing_field (cfg : Config) (request : Request) (w : World) :
  method request = POST -> path request = "/users" ->
  assoc "name" (form request) = None \/
  assoc "email" (form request) = None \/
  assoc "institution" (form request) = None \/
  assoc "position" (form request) = None \/
  assoc "phone" (form request) = None \/
  assoc "image" (files request) = None ->
  wsgi_app cfg request w = (ErrorPage 400, [Log INFO "Add user request received"]).
Proof.
  intros Hm Hp Hmissing.
  rewrite (wsgi_app_routed cfg request w v_add_user []) by (rewrite Hm, Hp; reflexivity).
  unfold dispatch_request. run_view.
  destruct (assoc "name" (form request)); [| reflexivity].
  destruct (assoc "email" (form request)); [| reflexivity].
  destruct (assoc "institution" (form request)); [| reflexivity].
  destruct (assoc "position" (form request)); [| reflexivity].
  destruct (assoc "phone" (form request)); [| reflexivity].
  destruct (assoc "image" (files request)); [| reflexivity].
  exfalso. intuition discriminate.
Qed.

Lemma add_user_missing_field_witness :
  wsgi_app cfg0
    (mkRequest POST "/users"
       [("name", "A"); ("email", "a@x.com"); ("institution", "I"); ("position", "P")]
       [("image", mkFile "a.png" [])] no_json)
    (upstream_answers (inr (mkResponse 200 (inr (JArr [])))))
  = (ErrorPage 400, [Log INFO "Add user request received"]).
Proof.
  apply add_user_missing_field; try reflexivity.
  right. right. right. right. left. reflexivity.
Defined.

(** X7: when the upload of a create request fails with an exception e,
    the gateway answers 500 with {"error": str(e)} (the raw message of
    the store), logs it at ERROR level, and stops: the upload was tried
    once, under key users/<filename> with the filename as the client
    sent it, and nothing is POSTed upstream. *)
Theorem add_user_upload_failure (cfg : Config) (request : Request) (w : World)
    (name email institution position phone : string) (image : FileStorage)
    (check : Response) (e : Exception) :
  form_fields request name email institution position phone image ->
  http w GET (Some (fstr (API_URL cfg) ++ "?email=" ++ email)) None = inr check ->
  status_code check <> 409 ->
  file_truthy image = true ->
  upload w image (S3_BUCKET cfg) ("users/" ++ filename image) = inl e ->
  result (add_user cfg request w) = inr (jsonify (JObj [("error", JStr (str_exc e))]) 500) /\
  effects (trace (add_user cfg request w)) =
    [ Http GET (Some (fstr (API_URL cfg) ++ "?email=" ++ email)) None;
      Upload image (S3_BUCKET cfg) ("users/" ++ filename image) ] /\
  In (Log ERROR ("S3 upload failed: " ++ str_exc e)) (trace (add_user cfg request w)).
Proof.
  intros (Hn & He & Hi & Hp & Hph & Him) Hcheck Hst Himg Hup.
  apply Z.eqb_neq in Hst.
  run_view. rewrite Hn, He, Hi, Hp, Hph, Him. cbv beta iota zeta.
  rewrite Hcheck. cbv beta iota zeta. rewrite Hst, Himg. cbv beta iota zeta.
  rewrite Hup. cbv beta iota zeta.
  repeat split. simpl. auto 10.
Qed.

Lemma add_user_upload_failure_witness :
  let denied := mkWorld (fun _ _ _ => inr (mkResponse 200 (inr (JArr []))))
                        (fun _ _ _ => inl (Error "ClientError" "AccessDenied")) in
  result (add_user cfg0 create_A_with_image denied) =
    inr (jsonify (JObj [("error", JStr "AccessDenied")]) 500) /\
  effects (trace (add_user cfg0 create_A_with_image denied)) =
    [ Http GET (Some "http://api/users?email=a@x.com") None;
      Upload (mkFile "a.png" []) (Some "bkt") "users/a.png" ].
Proof.
  cbv zeta.
  destruct (add_user_upload_failure cfg0 create_A_with_image
              (mkWorld (fun _ _ _ => inr (mkResponse 200 (inr (JArr []))))
                       (fun _ _ _ => inl (Error "ClientError" "AccessDenied")))
              "A" "a@x.com" "I" "P" "000" (mkFile "a.png" [])
              (mkResponse 200 (inr (JArr []))) (Error "ClientError" "AccessDenied"))
    as (Hres & Heff & _).
  - repeat split.
  - reflexivity.
  - discriminate.
  - reflexivity.
  - reflexivity.
  - split; [exact Hres | exact Heff].
Defined.

(** X8: when the pre-check has passed and the upload (if any) has
    succeeded, a create POST answered 409 gives 409 with
    {"error": "Email already exists"}, and a create POST that raises e
    gives 500 with {"error": "Failed connect to API"} and an ERROR record
    carrying str(e). *)
Theorem add_user_create_failure (cfg : Config) (request : Request) (w : World)
    (name email institution position phone : string) (image : FileStorage)
    (check : Response) :
  form_fields request name email institution position phone image ->
  http w GET (Some (fstr (API_URL cfg) ++ "?email=" ++ email)) None = inr check ->
  status_code check <> 409 ->
  (file_truthy image = true ->
   upload w image (S3_BUCKET cfg) ("users/" ++ filename image) = inr tt) ->
  let body := Some (user_data name email institution position phone (image_url_of cfg image)) in
  (forall response,
      http w POST (API_URL cfg) body = inr response -> status_code response = 409 ->
      result (add_user cfg request w) =
        inr (jsonify (JObj [("error", JStr "Email already exists")]) 409)) /\
  (forall e,
      http w POST (API_URL cfg) body = inl e ->
      result (add_user cfg request w) =
        inr (jsonify (JObj [("error", JStr "Failed connect to API")]) 500) /\
      In (Log ERROR ("POST to API Gateway failed: " ++ str_exc e))
         (trace (add_user cfg request w))).
Proof.
  intros (Hn & He & Hi & Hp & Hph & Him) Hcheck Hst Hup. cbv zeta.
  apply Z.eqb_neq in Hst. unfold image_url_of.
  split.
  - intros response Hpost Hst'. run_view.
    rewrite Hn, He, Hi, Hp, Hph, Him. cbv beta iota zeta.
    rewrite Hcheck. cbv beta iota zeta. rewrite Hst.
    destruct (file_truthy image) eqn:Himg; cbv beta iota zeta.
    + rewrite (Hup eq_refl). cbv beta iota zeta.
      rewrite Hpost. cbv beta iota zeta. rewrite Hst'. reflexivity.
    + rewrite Hpost. cbv beta iota zeta. rewrite Hst'. reflexivity.
  - intros e Hpost. run_view.
    rewrite Hn, He, Hi, Hp, Hph, Him. cbv beta iota zeta.
    rewrite Hcheck. cbv beta iota zeta. rewrite Hst.
    destruct (file_truthy image) eqn:Himg; cbv beta iota zeta.
    + rewrite (Hup eq_refl). cbv beta iota zeta.
      rewrite Hpost. cbv beta iota zeta. split; [reflexivity |]. simpl. auto 12.
    + rewrite Hpost. cbv beta iota zeta. split; [reflexivity |]. simpl. auto 12.
Qed.

Lemma add_user_create_failure_witness :
  result (add_user cfg0 create_A_with_image
            (upstream_create (inr (mkResponse 200 (inr (JArr []))))
                             (inr (mkResponse 409 (inr JNull))))) =
    inr (jsonify (JObj [("error", JStr "Email already exists")]) 409) /\
  result (add_user cfg0 create_A
            (upstream_create (inr (mkResponse 200 (inr (JArr []))))
                             (inl connection_error))) =
    inr (jsonify (JObj [("error", JStr "Failed connect to API")]) 500).
Proof.
  split.
  - apply (proj1 (add_user_create_failure cfg0 create_A_with_image
                    (upstream_create (inr (mkResponse 200 (inr (JArr []))))
                                     (inr (mkResponse 409 (inr JNull))))
                    "A" "a@x.com" "I" "P" "000" (mkFile "a.png" [])
                    (mkResponse 200 (inr (JArr [])))
                    (conj eq_refl (conj eq_refl (conj eq_refl
                       (conj eq_refl (conj eq_refl eq_refl)))))
                    eq_refl ltac:(discriminate) (fun _ => eq_refl))
             (mkResponse 409 (inr JNull)));
      reflexivity.
  - apply (proj2 (add_user_create_failure cfg0 create_A
                    (upstream_create (inr (mkResponse 200 (inr (JArr []))))
                                     (inl connection_error))
                    "A" "a@x.com" "I" "P" "000" (mkFile "" [])
                    (mkResponse 200 (inr (JArr [])))
                    (conj eq_refl (conj eq_refl (conj eq_refl
                       (conj eq_refl (conj eq_refl eq_refl)))))
                    eq_refl ltac:(discriminate) (fun _ => eq_refl))
             connection_error).
    reflexivity.
Defined.

(** X9: a create request with a file acts in a fixed order and never
    undoes a step: the pre-check GET, then the upload under key
    users/<filename>, then the POST of the six fields with image_url
    https://<bucket>.s3-<region>.amazonaws.com/users/<filename>, whatever
    the POST answers.  So when the create POST is refused or fails, the
    image has been stored and stays. *)
Theorem add_user_effects_in_order (cfg : Config) (request : Request) (w : World)
    (name email institution position phone : string) (image : FileStorage)
    (check : Response) :
  form_fields request name email institution position phone image ->
  http w GET (Some (fstr (API_URL cfg) ++ "?email=" ++ email)) None = inr check ->
  status_code check <> 409 ->
  file_truthy image = true ->
  upload w image (S3_BUCKET cfg) ("users/" ++ filename image) = inr tt ->
  effects (trace (add_user cfg request w)) =
  [ Http GET (Some (fstr (API_URL cfg) ++ "?email=" ++ email)) None;
    Upload image (S3_BUCKET cfg) ("users/" ++ filename image);
    Http POST (API_URL cfg)
      (Some (user_data name email institution position phone
               ("https://" ++ fstr (S3_BUCKET cfg) ++ ".s3-" ++ fstr (AWS_REGION cfg)
                  ++ ".amazonaws.com/" ++ "users/" ++ filename image))) ].
Proof.
  intros (Hn & He & Hi & Hp & Hph & Him) Hcheck Hst Himg Hup.
  apply Z.eqb_neq in Hst.
  run_view. rewrite Hn, He, Hi, Hp, Hph, Him. cbv beta iota zeta.
  rewrite Hcheck. cbv beta iota zeta. rewrite Hst, Himg. cbv beta iota zeta.
  rewrite Hup. cbv beta iota zeta.
  change (url_for "index") with (@inr Exception string "/").
  unfold s3_object_url.
  run_cases; reflexivity.
Qed.

Lemma add_user_effects_in_order_witness :
  effects (trace (add_user cfg0 create_A_with_image
                    (upstream_create (inr (mkResponse 200 (inr (JArr []))))
                                     (inr (mkResponse 409 (inr JNull)))))) =
  [ Http GET (Some "http://api/users?email=a@x.com") None;
    Upload (mkFile "a.png" []) (Some "bkt") "users/a.png";
    Http POST (Some "http://api/users")
      (Some (user_data "A" "a@x.com" "I" "P" "000"
               "https://bkt.s3-us-east-1.amazonaws.com/users/a.png")) ].
Proof.
  apply (add_user_effects_in_order cfg0 create_A_with_image
           (upstream_create (inr (mkResponse 200 (inr (JArr []))))
                            (inr (mkResponse 409 (inr JNull))))
           "A" "a@x.com" "I" "P" "000" (mkFile "a.png" [])
           (mkResponse 200 (inr (JArr []))));
    try reflexivity.
  - repeat split.
  - discriminate.
Defined.

Ltac run_out := repeat (cbv beta iota zeta; cbn [fst snd]; try break_inner).

(** [add_user] raises nothing but the 400 of a missing field, and
    returns nothing but a redirect, a 409 or a 500. *)
Lemma add_user_outcome (cfg : Config) (request : Request) (w : World) :
  match result (add_user cfg request w) with
  | inr response => In (status_of response) [302; 409; 500]
  | inl e => exists key, e = BadRequestKeyError key
  end.
Proof.
  run_view. change (url_for "index") with (@inr Exception string "/").
  run_out; simpl; eauto 10.
Qed.

(** X10: whatever the upstream and the bucket answer, POST /users is
    answered with one of four statuses: 302 (the redirect), 400 (a
    missing field), 409 or 500.  No upstream status other than 409 ever
    reaches the client of a create request. *)
Theorem add_user_statuses (cfg : Config) (request : Request) (w : World) :
  method request = POST -> path request = "/users" ->
  In (status_of (fst (wsgi_app cfg request w))) [302; 400; 409; 500].
Proof.
  intros Hm Hp.
  rewrite (wsgi_app_routed cfg request w v_add_user []) by (rewrite Hm, Hp; reflexivity).
  cbn [fst]. unfold dispatch_request.
  generalize (add_user_outcome cfg request w).
  destruct (result (add_user cfg request w)) as [e | response].
  - intros [key ->]. simpl. auto.
  - simpl. intuition.
Qed.

Lemma add_user_statuses_witness :
  In (status_of (fst (wsgi_app cfg0 create_A
                        (upstream_create (inr (mkResponse 200 (inr (JArr []))))
                                         (inr (mkResponse 503 (inl decode_error)))))))
     [302; 400; 409; 500].
Proof.
  apply add_user_statuses; reflexivity.
Defined.

(** * More of update, delete and index *)

(** X11: an update request, PUT or PATCH alike, is forwarded upstream
    as a PUT: with a JSON body in the request, the one upstream call of
    PUT|PATCH /users/<digits> is PUT <API_URL>/<n> carrying that body
    unchanged. *)
Theorem update_is_forwarded_as_put (cfg : Config) (request : Request) (w : World)
    (digits : string) (n : N) (data : JSON) :
  method request = PUT \/ method request = PATCH ->
  path request = "/users/" ++ digits ->
  int_converter digits = Some n ->
  request_json request = inr data ->
  effects (snd (wsgi_app cfg request w)) =
  [Http PUT (Some (fstr (API_URL cfg) ++ "/" ++ str_nat n)) (Some data)].
Proof.
  intros Hm Hp Hint Hdata.
  rewrite (wsgi_app_routed cfg request w v_update_user [("user_id", n)]).
  - cbn [snd]. unfold dispatch_request. unfold trace at 1.
    rewrite dispatch_with_user_id.
    run_view. rewrite Hdata. run_out; reflexivity.
  - rewrite Hp. destruct Hm as [-> | ->];
      [exact (match_request_users_id PUT _ _ Hint)
      | exact (match_request_users_id PATCH _ _ Hint)].
Qed.

Lemma update_is_forwarded_as_put_witness :
  effects (snd (wsgi_app cfg0
                  (mkRequest PATCH "/users/7" [] [] (inr (JObj [("phone", JStr "111")])))
                  (upstream_answers (inr (mkResponse 200 (inr user7)))))) =
  [Http PUT (Some "http://api/users/7") (Some (JObj [("phone", JStr "111")]))].
Proof.
  apply (update_is_forwarded_as_put cfg0 _ _ "7" 7%N); try reflexivity.
  right. reflexivity.
Defined.

(** X12: an update request whose body Flask cannot read as JSON
    ([request.json] raises e) never reaches the upstream: the view stops
    after its first log record and Flask answers with the page of e (415
    for a body that is not declared as JSON). *)
Theorem update_without_json_body (cfg : Config) (request : Request) (w : World)
    (digits : string) (n : N) (e : Exception) :
  method request = PUT \/ method request = PATCH ->
  path request = "/users/" ++ digits ->
  int_converter digits = Some n ->
  request_json request = inl e ->
  wsgi_app cfg request w =
  (handle_exception e, [Log INFO ("Update user: " ++ str_nat n)]).
Proof.
  intros Hm Hp Hint Hdata.
  rewrite (wsgi_app_routed cfg request w v_update_user [("user_id", n)]).
  - unfold dispatch_request, result, trace. rewrite dispatch_with_user_id.
    run_view. rewrite Hdata. reflexivity.
  - rewrite Hp. destruct Hm as [-> | ->];
      [exact (match_request_users_id PUT _ _ Hint)
      | exact (match_request_users_id PATCH _ _ Hint)].
Qed.

Lemma update_without_json_body_witness :
  wsgi_app cfg0 (request_of PUT "/users/7") (upstream_answers (inr (mkResponse 200 (inr user7))))
  = (ErrorPage 415, [Log INFO "Update user: 7"]).
Proof.
  apply (update_without_json_body cfg0 (request_of PUT "/users/7") _ "7" 7%N
           (HTTPException 415 "Unsupported Media Type"));
    try reflexivity.
  left. reflexivity.
Defined.

(** X13: when the forwarded call of a delete or of an update raises e,
    the gateway answers 500 with {"error": "API unreachable"} and logs an
    ERROR record carrying str(e); the call is not tried again. *)
Theorem delete_and_update_unreachable (cfg : Config) (user_id : N) (w : World)
    (e : Exception) :
  let url := Some (fstr (API_URL cfg) ++ "/" ++ str_nat user_id) in
  let unreachable := jsonify (JObj [("error", JStr "API unreachable")]) 500 in
  (http w DELETE url None = inl e ->
   result (delete_user cfg user_id w) = inr unreachable /\
   In (Log ERROR ("Delete failed: " ++ str_exc e)) (trace (delete_user cfg user_id w)) /\
   effects (trace (delete_user cfg user_id w)) = [Http DELETE url None]) /\
  (forall request data,
      request_json request = inr data ->
      http w PUT url (Some data) = inl e ->
      result (update_user cfg user_id request w) = inr unreachable /\
      In (Log ERROR ("Update failed: " ++ str_exc e))
         (trace (update_user cfg user_id request w)) /\
      effects (trace (update_user cfg user_id request w)) = [Http PUT url (Some data)]).
Proof.
  cbv zeta. split.
  - intros Hcall. run_view. rewrite Hcall. cbv beta iota zeta.
    repeat split. simpl. auto.
  - intros request data Hdata Hcall. run_view.
    rewrite Hdata. cbv beta iota zeta. rewrite Hcall. cbv beta iota zeta.
    repeat split. simpl. auto.
Qed.

Lemma delete_and_update_unreachable_witness :
  result (delete_user cfg0 7 (upstream_answers (inl connection_error))) =
    inr (jsonify (JObj [("error", JStr "API unreachable")]) 500) /\
  In (Log ERROR "Update failed: Connection refused")
     (trace (update_user cfg0 7 update_7 (upstream_answers (inl connection_error)))).
Proof.
  split.
  - apply (proj1 (delete_and_update_unreachable cfg0 7 (upstream_answers (inl connection_error))
                    connection_error)).
    reflexivity.
  - apply (proj2 (delete_and_update_unreachable cfg0 7 (upstream_answers (inl connection_error))
                    connection_error) update_7 (JObj [("name", JStr "B")]));
      reflexivity.
Defined.

(** X14: [index] never looks at the upstream status: whatever JSON the
    list call returns, under whatever status (a list with 200, an error
    object with 500), it is handed to the template as the users, next to
    the bucket URL https://<bucket>.s3.<region>.amazonaws.com/. *)
Theorem index_ignores_upstream_status (cfg : Config) (w : World)
    (response : Response) (users : JSON) :
  http w GET (API_URL cfg) None = inr response ->
  json response = inr users ->
  result (index cfg w) =
    inr (RenderedTemplate "index.html" users
           ("https://" ++ fstr (S3_BUCKET cfg) ++ ".s3." ++ fstr (AWS_REGION cfg)
              ++ ".amazonaws.com/")) /\
  forall msg, ~ In (Log ERROR msg) (trace (index cfg w)).
Proof.
  intros Hcall Hbody. run_view. rewrite Hcall. cbv beta iota zeta. rewrite Hbody.
  split; [reflexivity |].
  intros msg Hin. simpl in Hin.
  repeat (destruct Hin as [Hin | Hin]; try discriminate Hin; try contradiction).
Qed.

Lemma index_ignores_upstream_status_witness :
  result (index cfg0 (upstream_answers
                        (inr (mkResponse 500 (inr (JObj [("message", JStr "boom")])))))) =
  inr (RenderedTemplate "index.html" (JObj [("message", JStr "boom")])
         "https://bkt.s3.us-east-1.amazonaws.com/").
Proof.
  apply (proj1 (index_ignores_upstream_status cfg0
                  (upstream_answers
                     (inr (mkResponse 500 (inr (JObj [("message", JStr "boom")])))))
                  (mkResponse 500 (inr (JObj [("message", JStr "boom")])))
                  (JObj [("message", JStr "boom")]) eq_refl eq_refl)).
Defined.

(** X15: with a JSON body upstream, an update is a success on status
    200 and on no other: 200 gives {"message": "User updated",
    "data": <body>} with status 200, every other status (also 201 or 204)
    gives {"error": "Failed to update user"} with the upstream status,
    and the upstream body is dropped. *)
Theorem update_user_success_only_on_200 (cfg : Config) (user_id : N) (request : Request)
    (w : World) (data body : JSON) (response : Response) :
  request_json request = inr data ->
  http w PUT (Some (fstr (API_URL cfg) ++ "/" ++ str_nat user_id)) (Some data) = inr response ->
  json response = inr body ->
  result (update_user cfg user_id request w) =
  inr (if status_code response =? 200
       then jsonify (JObj [("message", JStr "User updated"); ("data", body)]) 200
       else jsonify (JObj [("error", JStr "Failed to update user")]) (status_code response)).
Proof.
  intros Hdata Hcall Hbody. run_view.
  rewrite Hdata. cbv beta iota zeta. rewrite Hcall. cbv beta iota zeta.
  destruct (status_code response =? 200); [| reflexivity].
  cbv beta iota zeta. rewrite Hbody. reflexivity.
Qed.

Lemma update_user_success_only_on_200_witness :
  result (update_user cfg0 7 update_7 (upstream_answers (inr (mkResponse 200 (inr user7))))) =
    inr (jsonify (JObj [("message", JStr "User updated"); ("data", user7)]) 200) /\
  result (update_user cfg0 7 update_7 (upstream_answers (inr (mkResponse 201 (inr user7))))) =
    inr (jsonify (JObj [("error", JStr "Failed to update user")]) 201).
Proof.
  split.
  - exact (update_user_success_only_on_200 cfg0 7 update_7
             (upstream_answers (inr (mkResponse 200 (inr user7))))
             (JObj [("name", JStr "B")]) user7 (mkResponse 200 (inr user7))
             eq_refl eq_refl eq_refl).
  - exact (update_user_success_only_on_200 cfg0 7 update_7
             (upstream_answers (inr (mkResponse 201 (inr user7))))
             (JObj [("name", JStr "B")]) user7 (mkResponse 201 (inr user7))
             eq_refl eq_refl eq_refl).
Defined.

(** * Across the views *)

(** X16: every failure of a read is logged with its message: when the
    list call or the get call raises e, or returns a body whose decoding
    raises e, and when the pre-check of a create raises e, the view
    writes an ERROR record that ends with str(e). *)
Theorem read_failures_are_logged (cfg : Config) (w : World) (e : Exception) :
  (http w GET (API_URL cfg) None = inl e \/
   (exists response, http w GET (API_URL cfg) None = inr response /\ json response = inl e) ->
   In (Log ERROR ("Failed to fetch users from API Gateway: " ++ str_exc e))
      (trace (index cfg w))) /\
  (forall user_id,
      http w GET (Some (fstr (API_URL cfg) ++ "/" ++ str_nat user_id)) None = inl e \/
      (exists response,
          http w GET (Some (fstr (API_URL cfg) ++ "/" ++ str_nat user_id)) None = inr response /\
          json response = inl e) ->
      In (Log ERROR ("Get user failed: " ++ str_exc e)) (trace (get_user cfg user_id w))) /\
  (forall request name email institution position phone image,
      form_fields request name email institution position phone image ->
      http w GET (Some (fstr (API_URL cfg) ++ "?email=" ++ email)) None = inl e ->
      In (Log ERROR ("Email check failed: " ++ str_exc e)) (trace (add_user cfg request w))).
Proof.
  split; [| split].
  - intros [Hcall | (response & Hcall & Hbody)]; run_view; rewrite Hcall;
      cbv beta iota zeta; try rewrite Hbody; simpl; auto 6.
  - intros user_id [Hcall | (response & Hcall & Hbody)]; run_view; rewrite Hcall;
      cbv beta iota zeta; try rewrite Hbody; simpl; auto 6.
  - intros request name email institution position phone image
      (Hn & He & Hi & Hp & Hph & Him) Hcall.
    run_view. rewrite Hn, He, Hi, Hp, Hph, Him. cbv beta iota zeta.
    rewrite Hcall. simpl. auto 6.
Qed.

Lemma read_failures_are_logged_witness :
  In (Log ERROR "Failed to fetch users from API Gateway: Connection refused")
     (trace (index cfg0 (upstream_answers (inl connection_error)))) /\
  In (Log ERROR "Get user failed: Connection refused")
     (trace (get_user cfg0 7 (upstream_answers (inl connection_error)))) /\
  In (Log ERROR "Email check failed: Connection refused")
     (trace (add_user cfg0 create_A (upstream_answers (inl connection_error)))).
Proof.
  split; [| split].
  - apply (proj1 (read_failures_are_logged cfg0 (upstream_answers (inl connection_error))
                    connection_error)).
    left. reflexivity.
  - apply (proj1 (proj2 (read_failures_are_logged cfg0 (upstream_answers (inl connection_error))
                           connection_error)) 7%N).
    left. reflexivity.
  - apply (proj2 (proj2 (read_failures_are_logged cfg0 (upstream_answers (inl connection_error))
                           connection_error))
             create_A "A" "a@x.com" "I" "P" "000" (mkFile "" [])).
    + repeat split.
    + reflexivity.
Defined.

(** X17: nothing is tried twice.  Whatever the request and whatever the
    outside answers, one request makes at most two upstream calls and at
    most one upload; a request that is not a POST makes at most one
    upstream call and no upload. *)
Theorem no_retries (cfg : Config) (request : Request) (w : World) :
  (List.length (http_calls (snd (wsgi_app cfg request w))) <= 2)%nat /\
  (List.length (uploads (snd (wsgi_app cfg request w))) <= 1)%nat /\
  (method request <> POST ->
   (List.length (http_calls (snd (wsgi_app cfg request w))) <= 1)%nat /\
   uploads (snd (wsgi_app cfg request w)) = []).
Proof.
  destruct (match_request (method request) (path request)) as [err | [v args]] eqn:Hroute.
  - unfold wsgi_app. rewrite Hroute. simpl. repeat split; lia.
  - rewrite (wsgi_app_routed _ _ _ _ _ Hroute). cbn [snd].
    apply match_request_sound in Hroute.
    destruct v; unfold dispatch_request.
    + run_view. run_out; simpl; repeat split; lia.
    + destruct Hroute as [Hm _].
      split; [| split; [| intros Hne; contradiction]];
        run_view; change (url_for "index") with (@inr Exception string "/");
        run_out; simpl; lia.
    + run_view. run_out; simpl; repeat split; lia.
    + run_view. run_out; simpl; repeat split; lia.
    + run_view. run_out; simpl; repeat split; lia.
Qed.

Lemma no_retries_witness :
  (List.length (http_calls (snd (wsgi_app cfg0 (request_of DELETE "/users/7/delete")
                                   (upstream_answers (inl connection_error))))) <= 1)%nat /\
  uploads (snd (wsgi_app cfg0 (request_of DELETE "/users/7/delete")
                  (upstream_answers (inl connection_error)))) = [].
Proof.
  apply (proj2 (proj2 (no_retries cfg0 (request_of DELETE "/users/7/delete")
                         (upstream_answers (inl connection_error))))).
  discriminate.
Defined.

(** X18: what the two non-error answers of a create tell.  A 409 is
    answered only when the upstream answered 409 to the pre-check or to
    the create POST; a redirect is answered only when the six fields were
    POSTed upstream and the upstream answered that POST with a status
    other than 409. *)
Theorem add_user_answers_reflect_upstream (cfg : Config) (request : Request) (w : World) :
  (forall body,
      result (add_user cfg request w) = inr (JsonResponse body 409) ->
      exists m url sent response,
        In (Http m url sent) (trace (add_user cfg request w)) /\
        http w m url sent = inr response /\ status_code response = 409) /\
  (forall location,
      result (add_user cfg request w) = inr (RedirectResponse location) ->
      exists sent response,
        In (Http POST (API_URL cfg) (Some sent)) (trace (add_user cfg request w)) /\
        http w POST (API_URL cfg) (Some sent) = inr response /\
        status_code response <> 409).
Proof.
  split.
  - intros body. run_view. change (url_for "index") with (@inr Exception string "/").
    run_out; intros H; try discriminate H;
      match goal with
      | Hc : http w ?m ?url ?sent = inr ?r, Hs : (status_code ?r =? 409) = true |- _ =>
          exists m, url, sent, r; split; [simpl; auto 12 | split; [exact Hc | ]];
          apply Z.eqb_eq; exact Hs
      end.
  - intros location. run_view. change (url_for "index") with (@inr Exception string "/").
    run_out; intros H; try discriminate H;
      match goal with
      | Hc : http w POST ?url (Some ?sent) = inr ?r, Hs : (status_code ?r =? 409) = false |- _ =>
          exists sent, r; split; [simpl; auto 14 | split; [exact Hc | ]];
          apply Z.eqb_neq; exact Hs
      end.
Qed.

Lemma add_user_answers_reflect_upstream_witness :
  exists sent response,
    In (Http POST (Some "http://api/users") (Some sent))
       (trace (add_user cfg0 create_A
                 (upstream_create (inr (mkResponse 200 (inr (JArr []))))
                                  (inr (mkResponse 201 (inr user7)))))) /\
    http (upstream_create (inr (mkResponse 200 (inr (JArr []))))
                          (inr (mkResponse 201 (inr user7))))
         POST (Some "http://api/users") (Some sent) = inr response /\
    status_code response <> 409.
Proof.
  apply (proj2 (add_user_answers_reflect_upstream cfg0 create_A
                  (upstream_create (inr (mkResponse 200 (inr (JArr []))))
                                   (inr (mkResponse 201 (inr user7))))) "/").
  reflexivity.
Defined.

(** X19: every request that reaches a view is logged before anything
    else happens: the trace of the request starts with an INFO record,
    ahead of any upstream call or upload. *)
Theorem views_log_first (cfg : Config) (request : Request) (w : World)
    (v : View) (args : list (string * N)) :
  match_request (method request) (path request) = inr (v, args) ->
  exists msg rest, snd (wsgi_app cfg request w) = Log INFO msg :: rest.
Proof.
  intros Hroute. rewrite (wsgi_app_routed _ _ _ _ _ Hroute). cbn [snd].
  apply match_request_sound in Hroute.
  destruct v; unfold dispatch_request.
  - run_view. run_out; eexists; eexists; reflexivity.
  - run_view. run_out; eexists; eexists; reflexivity.
  - destruct Hroute as (_ & digits & n & _ & _ & ->).
    unfold trace. rewrite dispatch_with_user_id.
    run_view. run_out; eexists; eexists; reflexivity.
  - destruct Hroute as (_ & digits & n & _ & _ & ->).
    unfold trace. rewrite dispatch_with_user_id.
    run_view. run_out; eexists; eexists; reflexivity.
  - destruct Hroute as (_ & digits & n & _ & _ & ->).
    unfold trace. rewrite dispatch_with_user_id.
    run_view. run_out; eexists; eexists; reflexivity.
Qed.

Lemma views_log_first_witness :
  exists msg rest,
    snd (wsgi_app cfg0 update_7 (upstream_answers (inl connection_error))) =
    Log INFO msg :: rest.
Proof.
  exact (views_log_first cfg0 update_7 (upstream_answers (inl connection_error))
           v_update_user [("user_id", 7%N)] eq_refl).
Defined.
